(** * refitt_pipeline: the ZTF lightcurve pipeline and its chart renderer

    A shallow embedding of [refitt_pipeline/facilities/ztf.py] and
    [refitt_pipeline/plotting.py].  The two modules are thin layers over
    pandas and nested_pandas, so the first part of this file is a model of
    the pandas operations they call; the second part transcribes the Python
    functions statement by statement over that model; the last part states
    and proves the properties of the specification.

    Conventions of the model
    - a cell of a table is a [value]: Python's [None], the float [NaN], a
      number, a string or a boolean.  Numbers are exact rationals: IEEE
      rounding is not modelled;
    - a [DataFrame] is column oriented, as in pandas: a list of row labels
      and an ordered list of named columns;
    - a column taken out of a frame (a pandas Series) is the list of its
      cells; every binary operation of the source combines two columns of
      one and the same frame, where pandas' label alignment is the identity;
    - a Python exception is a value of [exn], and a Python expression that
      may raise has type [result A]. *)

From Stdlib Require Import QArith.
From stdpp Require Import gmap strings list.

Open Scope string_scope.
Open Scope list_scope.

(** ** Cells *)

Inductive value : Type :=
  | PyNone
  | NaN
  | Num (q : Q)
  | Str (s : string)
  | Bool (b : bool).

(** [pd.isna]: both [None] and [NaN] are missing values. *)
Definition isna (v : value) : bool :=
  match v with
  | PyNone | NaN => true
  | _ => false
  end.

Definition bool_to_Q (b : bool) : Q := if b then 1%Q else 0%Q.

(** Elementwise [==] as pandas computes it on the cells of a column:
    numbers compare by value, a boolean is the number 0 or 1 (Python's
    [True == 1]), and [NaN] equals nothing. *)
Definition py_eqb (a b : value) : bool :=
  match a, b with
  | PyNone, PyNone => true
  | Num x, Num y => Qeq_bool x y
  | Num x, Bool y => Qeq_bool x (bool_to_Q y)
  | Bool x, Num y => Qeq_bool (bool_to_Q x) y
  | Bool x, Bool y => Bool.eqb x y
  | Str x, Str y => String.eqb x y
  | _, _ => false
  end.

(** ** Exceptions and results *)

(** The exceptions the two modules can meet: four built-in classes, and
    whatever else a collaborator raises, with the name of its class.  The
    package defines no exception class of its own. *)
Inductive exn : Type :=
  | KeyError (key : string)
  | AttributeError (attr : string)
  | TypeError
  | ValueError (msg : string)
  | Other (cls msg : string).

(** [type(e).__name__] *)
Definition exn_class (e : exn) : string :=
  match e with
  | KeyError _ => "KeyError"
  | AttributeError _ => "AttributeError"
  | TypeError => "TypeError"
  | ValueError _ => "ValueError"
  | Other cls _ => cls
  end.

Inductive result (A : Type) : Type :=
  | Ok (a : A)
  | Raise (e : exn).
Arguments Ok {A} a.
Arguments Raise {A} e.

#[global] Instance result_ret : MRet result := @Ok.
#[global] Instance result_bind : MBind result := fun A B f m =>
  match m with
  | Ok a => f a
  | Raise e => Raise e
  end.

Definition is_ok {A} (r : result A) : bool :=
  match r with Ok _ => true | Raise _ => false end.

Definition to_option {A} (r : result A) : option A :=
  match r with Ok a => Some a | Raise _ => None end.

(** ** Tables *)

Record DataFrame : Type := mkDataFrame {
  index : list value;
  columns : list (string * list value)
}.

(** [len(df)] *)
Definition len (df : DataFrame) : nat := length (index df).

Definition column_names (df : DataFrame) : list string := (columns df).*1.

(** The invariant every pandas frame satisfies: column labels are distinct
    (the reader that builds a locus' lightcurve produces them so) and every
    column has one cell per row. *)
Definition wf_df (df : DataFrame) : Prop :=
  NoDup (column_names df) ∧
  Forall (λ c : string * list value, length c.2 = len df) (columns df).

Fixpoint assoc {A} (k : string) (l : list (string * A)) : option A :=
  match l with
  | [] => None
  | (k', a) :: l' => if String.eqb k k' then Some a else assoc k l'
  end.

(** [df[c]]: one column, [KeyError] when there is none of that name. *)
Definition getitem (df : DataFrame) (c : string) : result (list value) :=
  match assoc c (columns df) with
  | Some s => Ok s
  | None => Raise (KeyError c)
  end.

Fixpoint select (cols : list (string * list value)) (cs : list string)
  : result (list (string * list value)) :=
  match cs with
  | [] => Ok []
  | c :: cs' =>
      match assoc c cols with
      | Some s => rest ← select cols cs'; Ok ((c, s) :: rest)
      | None => Raise (KeyError c)
      end
  end.

(** [df[[c1, ..., cn]]]: the named columns in the order asked for, the
    row labels kept; [KeyError] when one is missing. *)
Definition getitem_list (df : DataFrame) (cs : list string) : result DataFrame :=
  cols ← select (columns df) cs;
  Ok (mkDataFrame (index df) cols).

Fixpoint set_assoc {A} (k : string) (a : A) (l : list (string * A))
  : list (string * A) :=
  match l with
  | [] => [(k, a)]
  | (k', a') :: l' =>
      if String.eqb k k' then (k', a) :: l' else (k', a') :: set_assoc k a l'
  end.

(** [df[c] = s]: overwrites the column in its place, or appends a new one. *)
Definition setitem (df : DataFrame) (c : string) (s : list value) : DataFrame :=
  mkDataFrame (index df) (set_assoc c s (columns df)).

(** [s.fillna(other)] for two columns of one frame: a missing cell takes the
    cell of [other] in the same row. *)
Fixpoint fillna (s other : list value) : list value :=
  match s, other with
  | v :: s', o :: other' => (if isna v then o else v) :: fillna s' other'
  | _, _ => s
  end.

Definition mem (c : string) (cs : list string) : bool :=
  existsb (String.eqb c) cs.

(** [df.drop(columns=cs)]: [KeyError] unless every label is there. *)
Definition drop (df : DataFrame) (cs : list string) : result DataFrame :=
  match List.find (λ c, negb (mem c (column_names df))) cs with
  | Some c => Raise (KeyError c)
  | None =>
      Ok (mkDataFrame (index df)
            (List.filter (λ c : string * list value, negb (mem c.1 cs)) (columns df)))
  end.

(** [df.rename(columns=mapping)]: labels outside the mapping are kept. *)
Definition rename (df : DataFrame) (mapping : list (string * string)) : DataFrame :=
  mkDataFrame (index df)
    (List.map (λ c : string * list value,
                 (default c.1 (assoc c.1 mapping), c.2)) (columns df)).

(** [s.replace(to_replace, value)] with two lists: a cell equal to
    [to_replace[j]] becomes [value[j]], any other cell is kept.  The
    masks are computed on the original cells, so a replacement is never
    replaced again. *)
Fixpoint replace1 (to_replace value_ : list value) (v : value) : value :=
  match to_replace, value_ with
  | src :: to_replace', dst :: value' =>
      if py_eqb v src then dst else replace1 to_replace' value' v
  | _, _ => v
  end.

Definition replace (s : list value) (to_replace value_ : list value) : list value :=
  List.map (replace1 to_replace value_) s.

(** [df.index = labels]: pandas checks the length. *)
Definition set_index (df : DataFrame) (labels : list value) : result DataFrame :=
  if Nat.eqb (length labels) (len df)
  then Ok (mkDataFrame labels (columns df))
  else Raise (ValueError "Length mismatch").

(** ** The remote record *)

(** What [antares_client] hands back: the lightcurve frame, the property
    dictionary and the two coordinates. *)
Record Locus : Type := mkLocus {
  lightcurve : DataFrame;
  properties : gmap string value;
  ra : value;
  dec : value
}.

(** [d[k]] and [d.get(k, None)] on a Python dict. *)
Definition dict_getitem (d : gmap string value) (k : string) : result value :=
  match d !! k with
  | Some v => Ok v
  | None => Raise (KeyError k)
  end.

Definition dict_get (d : gmap string value) (k : string) : value :=
  default PyNone (d !! k).

(** ** facilities/ztf.py *)

Definition format_antares_lc (locus : Locus) : result DataFrame :=
  lc ← getitem_list (lightcurve locus)
         ["ant_mjd"; "ant_survey"; "ant_passband"; "ant_mag"; "ant_magerr"; "ant_maglim"];
  ant_mag ← getitem lc "ant_mag";
  ant_maglim ← getitem lc "ant_maglim";
  let lc := setitem lc "ant_mag" (fillna ant_mag ant_maglim) in
  lc ← drop lc ["ant_maglim"];
  let lc := rename lc
              [("ant_mjd", "mjd"); ("ant_survey", "non_detection");
               ("ant_passband", "band"); ("ant_mag", "magnitude");
               ("ant_magerr", "magnitude_error")] in
  non_detection ← getitem lc "non_detection";
  let lc := setitem lc "non_detection"
              (replace non_detection [Num 1; Num 2] [Bool false; Bool true]) in
  band ← getitem lc "band";
  let lc := setitem lc "band"
              (replace band
                 [Str "g"; Str "R"; Str "r"; Str "G"; Str "i"; Str "I"]
                 [Str "ztfg"; Str "ztfr"; Str "ztfr"; Str "ztfg"; Str "ztfi"; Str "ztfi"]) in
  ztf_object_id ← dict_getitem (properties locus) "ztf_object_id";
  set_index lc (List.repeat ztf_object_id (len lc)).

Definition meta_keys : list string :=
  ["ztf_object_id"; "num_mag_values"; "num_alerts";
   "brightest_alert_magnitude"; "brightest_alert_observation_time";
   "newest_alert_magnitude"; "newest_alert_observation_time";
   "oldest_alert_magnitude"; "oldest_alert_observation_time"; "survey"].

(** [pd.DataFrame([d])] for one dict given as its items: one row, labelled
    0, one column per key. *)
Definition DataFrame_of_row (items : list (string * value)) : DataFrame :=
  mkDataFrame [Num 0] (List.map (λ kv : string * value, (kv.1, [kv.2])) items).

(** [df[c] = v] with a scalar: the scalar in every row. *)
Definition setitem_scalar (df : DataFrame) (c : string) (v : value) : DataFrame :=
  setitem df c (List.repeat v (len df)).

Definition format_antares_meta (locus : Locus) : result DataFrame :=
  let meta := DataFrame_of_row
                (List.map (λ key, (key, dict_get (properties locus) key)) meta_keys) in
  let meta := setitem_scalar meta "ra" (ra locus) in
  let meta := setitem_scalar meta "dec" (dec locus) in
  ztf_object_id ← dict_getitem (properties locus) "ztf_object_id";
  set_index meta (List.repeat ztf_object_id (len meta)).

(** What the ANTARES lookup does for one identifier: it returns a locus,
    returns [None] when nothing matches, or raises. *)
Inductive lookup_outcome : Type :=
  | Found (locus : Locus)
  | NotFound
  | Failed (e : exn).

(** A nested frame: the top-level table and, for every nested column, one
    packed sub-table per top-level row (a struct of lists), or null. *)
Record NestedFrame : Type := mkNestedFrame {
  base : DataFrame;
  nested : list (string * list (option (list (string * list value))))
}.

(** How two row labels match in a join on the index: by value, a missing
    label matching a missing one. *)
Definition label_eqb (a b : value) : bool :=
  match a, b with
  | NaN, NaN => true
  | _, _ => py_eqb a b
  end.

(** [s[mask]]: the cells at the rows where the mask holds. *)
Fixpoint where_ {A} (mask : list bool) (s : list A) : list A :=
  match mask, s with
  | b :: mask', v :: s' => if b then v :: where_ mask' s' else where_ mask' s'
  | _, _ => []
  end.

(** The rows of a flat table carrying one label, packed; null when there
    is no such row. *)
Definition pack_rows (flat : DataFrame) (label : value)
  : option (list (string * list value)) :=
  let mask := List.map (label_eqb label) (index flat) in
  if existsb (λ b : bool, b) mask
  then Some (List.map (λ c : string * list value, (c.1, where_ mask c.2)) (columns flat))
  else None.

(** The nested frame that [nf.add_nested(obj, name)] returns: [obj] packed
    by row label and left-joined to the top-level table on the index.
    What the packing raises instead of returning is [pack_flat], below. *)
Definition add_nested (nf : NestedFrame) (obj : DataFrame) (name : string) : NestedFrame :=
  mkNestedFrame (base nf)
    (set_assoc name (List.map (pack_rows obj) (index (base nf))) (nested nf)).

(** The Arrow types pyarrow infers for the cells of a column: a number
    (int64 or double), a string, a boolean.  A missing value ([None], and
    [NaN] under [from_pandas=True]) is a null of whatever type the column
    has. *)
Inductive arrow_type : Type :=
  | ArrowNumber
  | ArrowString
  | ArrowBool.

Definition arrow_type_eqb (a b : arrow_type) : bool :=
  match a, b with
  | ArrowNumber, ArrowNumber | ArrowString, ArrowString | ArrowBool, ArrowBool => true
  | _, _ => false
  end.

Definition arrow_type_of (v : value) : option arrow_type :=
  match v with
  | Num _ => Some ArrowNumber
  | Str _ => Some ArrowString
  | Bool _ => Some ArrowBool
  | PyNone | NaN => None
  end.

(** All the elements of a list are one and the same. *)
Definition uniform {A} (eqb : A → A → bool) (l : list A) : bool :=
  match l with
  | [] => true
  | a :: l' => forallb (eqb a) l'
  end.

(** Whether [pa.array(series, from_pandas=True)] converts a column: the
    cells that are not missing must all be of one Arrow type.  The column
    [False, 3] that [replace] leaves for a survey tag it does not map is
    not converted. *)
Definition pa_array_converts (s : list value) : bool :=
  uniform arrow_type_eqb (omap arrow_type_of s).

Definition is_text (v : value) : bool :=
  match v with Str _ => true | _ => false end.

Definition is_numeric (v : value) : bool :=
  match v with Num _ | Bool _ => true | _ => false end.

(** What the packing inside [add_nested] does before the join, and can
    raise: nested_pandas sorts the flat table by row label
    ([sort_index]: Python does not order a string and a number,
    [TypeError]) and converts every column to an Arrow array (pyarrow
    raises [ArrowInvalid], for some pairs of types [ArrowTypeError]; the
    model raises the first for both). *)
Definition pack_flat (flat : DataFrame) : result unit :=
  if existsb is_text (index flat) && existsb is_numeric (index flat)
  then Raise TypeError
  else if forallb (λ c : string * list value, pa_array_converts c.2) (columns flat)
  then Ok tt
  else Raise (Other "ArrowInvalid" "Could not convert").

Definition range_index (n : nat) : list value :=
  List.map (λ i, Num (inject_Z (Z.of_nat i))) (seq 0 n).

(** [nf.reset_index(drop=True)]: rows are relabelled 0, 1, ..., the old
    labels are discarded. *)
Definition reset_index (nf : NestedFrame) : NestedFrame :=
  mkNestedFrame (mkDataFrame (range_index (len (base nf))) (columns (base nf))) (nested nf).

Fixpoint union_names (seen cs : list string) : list string :=
  match cs with
  | [] => []
  | c :: cs' => if mem c seen then union_names seen cs' else c :: union_names (c :: seen) cs'
  end.

Definition column_or_nan (c : string) (df : DataFrame) : list value :=
  match assoc c (columns df) with
  | Some s => s
  | None => List.repeat NaN (len df)
  end.

(** [pd.concat(frames)]: rows stacked in order, over the union of the
    column labels in order of first appearance, [NaN] where a frame lacks
    a column.  Concatenating no frame at all raises [ValueError]. *)
Definition pd_concat (frames : list DataFrame) : result DataFrame :=
  match frames with
  | [] => Raise (ValueError "No objects to concatenate")
  | _ =>
      Ok (mkDataFrame
            (List.concat (List.map index frames))
            (List.map (λ c, (c, List.concat (List.map (column_or_nan c) frames)))
               (union_names [] (List.concat (List.map column_names frames)))))
  end.

(** The nested frame [lcs_to_nested_df] returns; it returns when the
    packing of [lightcurves] raises nothing ([pack_flat]). *)
Definition lcs_to_nested_df (lightcurves meta : DataFrame) : NestedFrame :=
  let nested_df := mkNestedFrame meta [] in
  add_nested nested_df lightcurves "lightcurve".

Section Pipeline.

(** The collaborators: the ANTARES lookup, the order in which a pool of
    [max_workers] threads completes the submitted tasks, and the parquet
    writer ([None] when the write succeeds). *)
Variable get_by_ztf_object_id : string → lookup_outcome.
Variable as_completed :
  Z → list (result (DataFrame * DataFrame)) → list (result (DataFrame * DataFrame)).
Variable to_parquet : NestedFrame → string → bool → option exn.

Definition query_ztf_lightcurve (ztf_object_id : string) : result (DataFrame * DataFrame) :=
  match get_by_ztf_object_id ztf_object_id with
  | Failed e => Raise e
  | NotFound => Raise (AttributeError "lightcurve")
  | Found locus =>
      lightcurve ← format_antares_lc locus;
      meta ← format_antares_meta locus;
      Ok (lightcurve, meta)
  end.

(** The body of the [for future in as_completed(...)] loop, with the two
    accumulators [lightcurves] and [metas]. *)
Definition collect_step (acc : list DataFrame * list DataFrame)
    (future : result (DataFrame * DataFrame)) : list DataFrame * list DataFrame :=
  match future with
  | Ok (lightcurve, meta) => (acc.1 ++ [lightcurve], acc.2 ++ [meta])
  | Raise _ => acc
  end.

(** Line 213 calls [lcs_to_nested_df], whose [add_nested] packs the merged
    lightcurves: the call raises what [pack_flat] raises, and goes on with
    the nested frame otherwise. *)
Definition query_ztf_lightcurves (ztf_object_ids : list string)
    (save_path : option string) (save_by_layer : bool) (max_workers : Z)
  : result NestedFrame :=
  if (max_workers <=? 0)%Z
  then Raise (ValueError "max_workers must be greater than 0")
  else
    let future_to_id := List.map query_ztf_lightcurve ztf_object_ids in
    let '(lightcurves, metas) :=
      fold_left collect_step (as_completed max_workers future_to_id) ([], []) in
    lightcurves ← pd_concat lightcurves;
    metas ← pd_concat metas;
    _ ← pack_flat lightcurves;
    let nested_df := reset_index (lcs_to_nested_df lightcurves metas) in
    match save_path with
    | None => Ok nested_df
    | Some path =>
        match to_parquet nested_df path save_by_layer with
        | None => Ok nested_df
        | Some e => Raise e
        end
    end.

End Pipeline.

(** ** plotting.py *)

(** [df[mask]]: the rows where the mask holds, labels included. *)
Definition getitem_mask (df : DataFrame) (mask : list bool) : DataFrame :=
  mkDataFrame (where_ mask (index df))
    (List.map (λ c : string * list value, (c.1, where_ mask c.2)) (columns df)).

(** [s == v], elementwise. *)
Definition series_eq (s : list value) (v : value) : list bool :=
  List.map (λ x, py_eqb x v) s.

(** [s.min()]: the least number of the column, [NaN] cells skipped, [NaN]
    when nothing is left.  A time column holds numbers and [NaN]; on any
    other cell the arithmetic of line 54 raises [TypeError]. *)
Fixpoint series_min (s : list value) : result value :=
  match s with
  | [] => Ok NaN
  | v :: s' =>
      m ← series_min s';
      match v, m with
      | Num a, Num b => Ok (Num (if Qle_bool a b then a else b))
      | Num a, _ => Ok (Num a)
      | NaN, _ => Ok m
      | _, _ => Raise TypeError
      end
  end.

Definition value_sub (a b : value) : result value :=
  match a, b with
  | Num x, Num y => Ok (Num (Qminus x y))
  | Num _, NaN | NaN, Num _ | NaN, NaN => Ok NaN
  | _, _ => Raise TypeError
  end.

(** [s - m] with a scalar [m]. *)
Fixpoint series_sub (s : list value) (m : value) : result (list value) :=
  match s with
  | [] => Ok []
  | v :: s' =>
      d ← value_sub v m;
      rest ← series_sub s' m;
      Ok (d :: rest)
  end.

(** [s.unique()]: the distinct cells in order of first appearance. *)
Fixpoint unique_from (seen s : list value) : list value :=
  match s with
  | [] => []
  | v :: s' =>
      if existsb (label_eqb v) seen then unique_from seen s'
      else v :: unique_from (v :: seen) s'
  end.

Definition unique (s : list value) : list value := unique_from [] s.

(** What a call leaves on the axes. *)
Inductive artist : Type :=
  | Errorbar (x y yerr : list value) (fmt : string) (label : value) (color : string)
  | Scatter (x y : list value) (color : string).

(** What [plot_light_curve] returns: the string ["none"] once the figure is
    written to [png], or the axes. *)
Inductive plot_return : Type :=
  | ReturnNone (png : string) (drawn : list artist)
  | ReturnAx (ax : list artist).

(** Tables are Python objects: the caller and the callee hold references to
    one and the same frame.  The heap maps references to frames, and a
    statement is a function from the heap to the new heap and a result. *)
Definition loc := positive.

Definition M (A : Type) : Type := gmap loc DataFrame → gmap loc DataFrame * result A.

Definition ret {A} (a : A) : M A := λ h, (h, Ok a).

Definition bind {A B} (m : M A) (k : A → M B) : M B := λ h,
  match m h with
  | (h', Ok a) => k a h'
  | (h', Raise e) => (h', Raise e)
  end.

Definition lift {A} (r : result A) : M A := λ h, (h, r).

(** Reading through a reference.  A Python name is always bound to a live
    object; a reference outside the heap does not occur. *)
Definition load (r : loc) : M DataFrame := λ h,
  match h !! r with
  | Some df => (h, Ok df)
  | None => (h, Raise (ValueError "unbound reference"))
  end.

(** [r[c] = s]: the frame behind [r] is updated in place. *)
Definition store_column (r : loc) (c : string) (s : list value) : M unit :=
  bind (load r) (λ df h, (<[r := setitem df c s]> h, Ok tt)).

Notation "'do' x <- m ; k" := (bind m (λ x, k))
  (at level 10, x name, m at level 100, k at level 200).

Section Plotting.

(** [utils.color_dict] and [utils.marker_dict], keyed by band. *)
Variable color_dict marker_dict : gmap string string.

(** [d[band]] on one of the two style dictionaries; the key of the
    [KeyError] is not rendered when the band is not a string. *)
Definition style_getitem (d : gmap string string) (band : value) : result string :=
  match band with
  | Str b => match d !! b with Some v => Ok v | None => Raise (KeyError b) end
  | _ => Raise (KeyError "")
  end.

(** One turn of the loop over the bands, on the frame as it is then.  The
    two drawing calls are recorded as they are made; the checks matplotlib
    runs on their arguments are outside the model, so a call that returns
    here may still raise there. *)
Definition plot_band (lightcurve : DataFrame) (ax : list artist) (band : value)
  : result (list artist) :=
  bands ← getitem lightcurve "band";
  let band_data := getitem_mask lightcurve (series_eq bands band) in
  nd ← getitem band_data "non_detection";
  let detections := getitem_mask band_data (series_eq nd (Bool false)) in
  nd ← getitem band_data "non_detection";
  let non_detections := getitem_mask band_data (series_eq nd (Bool true)) in
  x ← getitem detections "mjd";
  y ← getitem detections "magnitude";
  yerr ← getitem detections "magnitude_error";
  fmt ← style_getitem marker_dict band;
  color ← style_getitem color_dict band;
  let ax := ax ++ [Errorbar x y yerr fmt band color] in
  x ← getitem non_detections "mjd";
  y ← getitem non_detections "magnitude";
  color ← style_getitem color_dict band;
  Ok (ax ++ [Scatter x y color]).

Fixpoint plot_bands (lightcurve : DataFrame) (ax : list artist) (bands : list value)
  : result (list artist) :=
  match bands with
  | [] => Ok ax
  | band :: bands' =>
      ax ← plot_band lightcurve ax band;
      plot_bands lightcurve ax bands'
  end.

(** Line 54: the right-hand side, on the frame as it is before the
    assignment. *)
Definition shifted_mjd (lightcurve : DataFrame) : result (list value) :=
  mjd ← getitem lightcurve "mjd";
  nd ← getitem lightcurve "non_detection";
  first ← getitem (getitem_mask lightcurve (series_eq nd (Bool false))) "mjd";
  m ← series_min first;
  series_sub mjd m.

Definition truthy (s : option string) : bool :=
  match s with
  | None | Some "" => false
  | Some _ => true
  end.

(** The axes are the list of the artists added so far; [ax=None] starts
    from fresh axes.  Ticks, labels, legend and title leave no trace in
    the model, and no extra keyword argument is forwarded to [errorbar].
    Of [savefig] the model keeps the name of the file, not whether the
    write succeeds. *)
Definition plot_light_curve (lightcurve : loc) (ztf_id : option string)
    (ax : option (list artist)) (save_path : option string) (time_axis : string)
  : M plot_return :=
  let ax := default [] ax in
  do _ <- (if negb (String.eqb time_axis "mjd")
           then do df <- load lightcurve;
                do mjd <- lift (shifted_mjd df);
                store_column lightcurve "mjd" mjd
           else ret tt);
  do df <- load lightcurve;
  do bands <- lift (getitem df "band");
  do ax <- lift (plot_bands df ax (unique bands));
  if truthy save_path
  then
    match ztf_id with
    | Some id => ret (ReturnNone (default "" save_path ++ id ++ ".png")%string ax)
    | None => lift (Raise TypeError)
    end
  else ret (ReturnAx ax).

End Plotting.

(** * Vocabulary of the properties, and test data *)

Section BatchVocabulary.

Variable get_by_ztf_object_id : string → lookup_outcome.
Variable as_completed :
  Z → list (result (DataFrame * DataFrame)) → list (result (DataFrame * DataFrame)).

(** The identifiers whose task raises, and the pairs of those whose task
    returns, both in submission order. *)
Definition failures (ids : list string) : list string :=
  List.filter (λ id, negb (is_ok (query_ztf_lightcurve get_by_ztf_object_id id))) ids.

Definition successes (ids : list string) : list (DataFrame * DataFrame) :=
  omap to_option (query_ztf_lightcurve get_by_ztf_object_id <$> ids).

(** The identifier property of the record fetched for [id], when the
    task for [id] returns. *)
Definition normalized_identifier (id : string) : option value :=
  match query_ztf_lightcurve get_by_ztf_object_id id, get_by_ztf_object_id id with
  | Ok _, Found locus => properties locus !! "ztf_object_id"
  | _, _ => None
  end.

(** The pairs collected by the loop, in order of arrival. *)
Definition arrived (ids : list string) (max_workers : Z)
  : list (DataFrame * DataFrame) :=
  omap to_option (as_completed max_workers (query_ztf_lightcurve get_by_ztf_object_id <$> ids)).

End BatchVocabulary.

Definition raw_columns : list string :=
  ["ant_mjd"; "ant_survey"; "ant_passband"; "ant_mag"; "ant_magerr"; "ant_maglim"].

Definition survey_map (s : list value) : list value :=
  replace s [Num 1; Num 2] [Bool false; Bool true].

Definition band_map (s : list value) : list value :=
  replace s
    [Str "g"; Str "R"; Str "r"; Str "G"; Str "i"; Str "I"]
    [Str "ztfg"; Str "ztfr"; Str "ztfr"; Str "ztfg"; Str "ztfi"; Str "ztfi"].

Definition has_columns (df : DataFrame) (cs : list string) : bool :=
  forallb (λ c, is_ok (getitem df c)) cs.

(** A small record used to exercise the theorems below: one detection in g
    and one upper limit in r, with a column the normalizer does not read. *)
Definition demo_lightcurve : DataFrame :=
  mkDataFrame [Num 0; Num 1]
    [("alert_id", [Str "a0"; Str "a1"]);
     ("ant_mjd", [Num 59000.5; Num 59001.5]);
     ("ant_survey", [Num 1; Num 2]);
     ("ant_passband", [Str "g"; Str "R"]);
     ("ant_mag", [Num 19.5; NaN]);
     ("ant_magerr", [Num 0.1; NaN]);
     ("ant_maglim", [Num 20.5; Num 20.1])].

Definition demo_locus : Locus :=
  mkLocus demo_lightcurve
    (<["ztf_object_id" := Str "ZTF21abcdefg"]> (<["num_alerts" := Num 2]> ∅))
    (Num 150.25) (Num 2.5).

(** What the two normalizers return for [demo_locus]. *)
Definition demo_lc : DataFrame :=
  mkDataFrame [Str "ZTF21abcdefg"; Str "ZTF21abcdefg"]
    [("mjd", [Num 59000.5; Num 59001.5]);
     ("non_detection", [Bool false; Bool true]);
     ("band", [Str "ztfg"; Str "ztfr"]);
     ("magnitude", [Num 19.5; Num 20.1]);
     ("magnitude_error", [Num 0.1; NaN])].

Definition demo_meta : DataFrame :=
  mkDataFrame [Str "ZTF21abcdefg"]
    [("ztf_object_id", [Str "ZTF21abcdefg"]);
     ("num_mag_values", [PyNone]);
     ("num_alerts", [Num 2]);
     ("brightest_alert_magnitude", [PyNone]);
     ("brightest_alert_observation_time", [PyNone]);
     ("newest_alert_magnitude", [PyNone]);
     ("newest_alert_observation_time", [PyNone]);
     ("oldest_alert_magnitude", [PyNone]);
     ("oldest_alert_observation_time", [PyNone]);
     ("survey", [PyNone]);
     ("ra", [Num 150.25]); ("dec", [Num 2.5])].

Definition demo_pairs : list (DataFrame * DataFrame) := [(demo_lc, demo_meta)].

(** No cell of the column is a missing value. *)
Definition no_absent (s : list value) : Prop := Forall (λ v, isna v = false) s.

(** A record whose only measurement has neither a magnitude nor a
    detection limit. *)
Definition blind_locus : Locus :=
  mkLocus
    (mkDataFrame [Num 0]
       [("ant_mjd", [Num 59000.5]); ("ant_survey", [Num 2]);
        ("ant_passband", [Str "g"]); ("ant_mag", [NaN]);
        ("ant_magerr", [NaN]); ("ant_maglim", [NaN])])
    (<["ztf_object_id" := Str "ZTF21abcdefg"]> ∅)
    (Num 150.25) (Num 2.5).

Definition raw_bands : list value :=
  [Str "g"; Str "G"; Str "r"; Str "R"; Str "i"; Str "I"].

Definition ztf_bands : list value := [Str "ztfg"; Str "ztfr"; Str "ztfi"].

Definition survey_map1 : value → value :=
  replace1 [Num 1; Num 2] [Bool false; Bool true].

Definition band_map1 : value → value :=
  replace1
    [Str "g"; Str "R"; Str "r"; Str "G"; Str "i"; Str "I"]
    [Str "ztfg"; Str "ztfr"; Str "ztfr"; Str "ztfg"; Str "ztfi"; Str "ztfi"].

(** A record that has properties and coordinates, but no identifier among
    the properties. *)
Definition anonymous_locus : Locus :=
  mkLocus demo_lightcurve (<["num_alerts" := Num 2]> ∅) (Num 150.25) (Num 2.5).

(** A pair as the normalizers produce it for one record: the lightcurve
    rows all carry one label, which is also the label of the single
    metadata row and the cell of its identifier column. *)
Definition keyed_pair (p : DataFrame * DataFrame) (id : value) : Prop :=
  index p.1 = List.repeat id (len p.1) ∧
  index p.2 = [id] ∧
  assoc "ztf_object_id" (columns p.2) = Some [id].

Definition pair_id (p : DataFrame * DataFrame) : value :=
  default PyNone (head (index p.2)).

(** The identifiers of the top-level rows and those of the merged
    lightcurve rows are the same set. *)
Definition nested_consistent (nf : NestedFrame) (lightcurves : DataFrame) : Prop :=
  ∃ top_ids,
    getitem (base nf) "ztf_object_id" = Ok top_ids ∧
    ∀ v, v ∈ top_ids ↔ v ∈ index lightcurves.

(** A pair of tables that the two normalizers produce from one record. *)
Definition normalized (p : DataFrame * DataFrame) : Prop :=
  ∃ locus, format_antares_lc locus = Ok p.1 ∧ format_antares_meta locus = Ok p.2.

(** A record with the six raw columns and no measurement at all. *)
Definition silent_locus : Locus :=
  mkLocus
    (mkDataFrame []
       [("ant_mjd", []); ("ant_survey", []); ("ant_passband", []);
        ("ant_mag", []); ("ant_magerr", []); ("ant_maglim", [])])
    (<["ztf_object_id" := Str "ZTF21zzzzzzz"]> ∅)
    (Num 10.5) (Num (-3.5)).

(** A service that knows two objects, times out on a third, and returns a
    record without identifier for a fourth; a pool that completes the
    tasks in the reverse of the submission order; a writer that succeeds. *)
Definition demo_service (ztf_object_id : string) : lookup_outcome :=
  if String.eqb ztf_object_id "ZTF21abcdefg" then Found demo_locus
  else if String.eqb ztf_object_id "ZTF21zzzzzzz" then Found silent_locus
  else if String.eqb ztf_object_id "ZTF00timeout" then Failed (Other "TimeoutError" "timed out")
  else if String.eqb ztf_object_id "ZTF00nameless" then Found anonymous_locus
  else NotFound.

Definition demo_as_completed (max_workers : Z)
    (futures : list (result (DataFrame * DataFrame)))
  : list (result (DataFrame * DataFrame)) :=
  rev futures.

Definition demo_to_parquet (nf : NestedFrame) (path : string) (by_layer : bool)
  : option exn := None.

(** The times of the detections: the rows where [non_detection == False]. *)
Definition detection_times (non_detection : list value) (times : list Q) : list Q :=
  where_ (series_eq non_detection (Bool false)) times.

(** The lightcurve of the specification's example: detections at times 10,
    12 and 15 and an upper limit at time 5, all in one band. *)
Definition example_lightcurve : DataFrame :=
  mkDataFrame [Str "ZTF21abcdefg"; Str "ZTF21abcdefg"; Str "ZTF21abcdefg"; Str "ZTF21abcdefg"]
    [("mjd", [Num 10; Num 12; Num 15; Num 5]);
     ("non_detection", [Bool false; Bool false; Bool false; Bool true]);
     ("band", [Str "ztfr"; Str "ztfr"; Str "ztfr"; Str "ztfr"]);
     ("magnitude", [Num 19.5; Num 19.1; Num 19.8; Num 20.6]);
     ("magnitude_error", [Num 0.1; Num 0.1; Num 0.2; NaN])].

Definition example_heap : gmap loc DataFrame := {[ 1%positive := example_lightcurve ]}.

Definition demo_color_dict : gmap string string :=
  <["ztfg" := "green"]> (<["ztfr" := "red"]> (<["ztfi" := "orange"]> ∅)).

Definition demo_marker_dict : gmap string string :=
  <["ztfg" := "o"]> (<["ztfr" := "s"]> (<["ztfi" := "D"]> ∅)).

Definition schema : list string :=
  ["mjd"; "non_detection"; "band"; "magnitude"; "magnitude_error"].

(** Column [c] of the frames, stacked in order. *)
Definition stacked (c : string) (frames : list DataFrame) : list value :=
  List.concat (List.map (column_or_nan c) frames).

(** The lightcurve tables, in order, of the pairs whose identifier matches
    [id]. *)
Definition own (id : value) (pairs : list (DataFrame * DataFrame)) : list DataFrame :=
  (List.filter (λ p, label_eqb id (pair_id p)) pairs).*1.

(** The assembled dataset of a list of collected pairs: what lines 211 to
    213 compute when the packing raises nothing. *)
Definition assemble (pairs : list (DataFrame * DataFrame)) : result NestedFrame :=
  lightcurves ← pd_concat pairs.*1;
  metas ← pd_concat pairs.*2;
  Ok (reset_index (lcs_to_nested_df lightcurves metas)).

(** The columns of a metadata table. *)
Definition meta_columns : list string := meta_keys ++ ["ra"; "dec"].

(** The cells of row [i] (by position) of a table, column by column. *)
Definition row_cells (df : DataFrame) (i : nat) : list (string * option value) :=
  List.map (λ c : string * list value, (c.1, c.2 !! i)) (columns df).

(** The content of the rows of a nested frame, labels left aside: for each
    row its cells and its nested cells. *)
Definition top_level_rows (nf : NestedFrame)
  : list (list (string * option value)
          * list (string * option (option (list (string * list value))))) :=
  List.map
    (λ i, (row_cells (base nf) i,
           List.map (λ n : string * list (option (list (string * list value))),
                       (n.1, n.2 !! i)) (nested nf)))
    (seq 0 (len (base nf))).

(** The row a collected pair stands for: the cells of its metadata row,
    and its own lightcurve columns (null when it has no measurement). *)
Definition row_of_pair (p : DataFrame * DataFrame)
  : list (string * option value)
    * list (string * option (option (list (string * list value)))) :=
  (row_cells p.2 0,
   [("lightcurve", Some (if Nat.eqb (len p.1) 0 then None else Some (columns p.1)))]).

(** What the two normalizers return for [silent_locus]. *)
Definition silent_lc : DataFrame :=
  mkDataFrame []
    [("mjd", []); ("non_detection", []); ("band", []);
     ("magnitude", []); ("magnitude_error", [])].

Definition silent_meta : DataFrame :=
  mkDataFrame [Str "ZTF21zzzzzzz"]
    [("ztf_object_id", [Str "ZTF21zzzzzzz"]);
     ("num_mag_values", [PyNone]);
     ("num_alerts", [PyNone]);
     ("brightest_alert_magnitude", [PyNone]);
     ("brightest_alert_observation_time", [PyNone]);
     ("newest_alert_magnitude", [PyNone]);
     ("newest_alert_observation_time", [PyNone]);
     ("oldest_alert_magnitude", [PyNone]);
     ("oldest_alert_observation_time", [PyNone]);
     ("survey", [PyNone]);
     ("ra", [Num 10.5]); ("dec", [Num (-3.5)])].

Definition two_pairs : list (DataFrame * DataFrame) :=
  [(demo_lc, demo_meta); (silent_lc, silent_meta)].

(** The result of a call that drew on existing axes, from the result of the
    same call on fresh axes. *)
Definition drawn_onto (ax : list artist) (r : result plot_return) : result plot_return :=
  match r with
  | Ok (ReturnAx drawn) => Ok (ReturnAx (ax ++ drawn))
  | Ok (ReturnNone png drawn) => Ok (ReturnNone png (ax ++ drawn))
  | Raise e => Raise e
  end.

(** A band the two style dictionaries know. *)
Definition styled (color_dict marker_dict : gmap string string) (band : value) : Prop :=
  ∃ b, band = Str b ∧ is_Some (marker_dict !! b) ∧ is_Some (color_dict !! b).

#[global] Instance result_fmap : FMap result := fun A B f m =>
  match m with
  | Ok a => Ok (f a)
  | Raise e => Raise e
  end.

(** A lightcurve of upper limits only. *)
Definition limits_lightcurve : DataFrame :=
  mkDataFrame [Str "ZTF21abcdefg"; Str "ZTF21abcdefg"]
    [("mjd", [Num 10; Num 12]);
     ("non_detection", [Bool true; Bool true]);
     ("band", [Str "ztfg"; Str "ztfr"]);
     ("magnitude", [Num 20.5; Num 20.6]);
     ("magnitude_error", [NaN; NaN])].

(** A service that answers with the record asked for, for the two objects
    it knows. *)
Definition honest_service (ztf_object_id : string) : lookup_outcome :=
  if String.eqb ztf_object_id "ZTF21abcdefg" then Found demo_locus
  else if String.eqb ztf_object_id "ZTF21zzzzzzz" then Found silent_locus
  else NotFound.

(** The number of points of an artist, and the rows the chart can show:
    those whose flag equals [False] or [True]. *)
Definition points (a : artist) : nat :=
  match a with
  | Errorbar x _ _ _ _ _ => length x
  | Scatter x _ _ => length x
  end.

Definition drawable (flag : value) : bool :=
  py_eqb flag (Bool false) || py_eqb flag (Bool true).

(** The rows of one band that the chart can show. *)
Definition band_rows (bands non_detection : list value) (band : value) : nat :=
  length (List.filter (λ p : value * value, py_eqb p.1 band && drawable p.2)
            (zip bands non_detection)).

(** A lightcurve with a detection, an upper limit, and a row whose survey
    tag (3) the normalizer left as it was. *)
Definition mixed_lightcurve : DataFrame :=
  mkDataFrame [Str "ZTF21abcdefg"; Str "ZTF21abcdefg"; Str "ZTF21abcdefg"]
    [("mjd", [Num 10; Num 12; Num 13]);
     ("non_detection", [Bool false; Bool true; Num 3]);
     ("band", [Str "ztfg"; Str "ztfr"; Str "ztfg"]);
     ("magnitude", [Num 19.5; Num 20.6; Num 19.7]);
     ("magnitude_error", [Num 0.1; NaN; Num 0.1])].

(** A cell of Arrow type [t], or a missing value. *)
Definition cell_of (t : arrow_type) (v : value) : bool :=
  match arrow_type_of v with
  | Some t' => arrow_type_eqb t t'
  | None => true
  end.

(** The types of the five columns of a lightcurve row. *)
Definition schema_types : list (string * arrow_type) :=
  [("mjd", ArrowNumber); ("non_detection", ArrowBool); ("band", ArrowString);
   ("magnitude", ArrowNumber); ("magnitude_error", ArrowNumber)].

(** A lightcurve table typed as the row schema has it: the row labels are
    strings, and each of the five columns holds cells of its type or
    missing values; in particular every survey tag was mapped to a
    boolean. *)
Definition typed (lc : DataFrame) : bool :=
  forallb is_text (index lc) &&
  forallb (λ ct : string * arrow_type,
             match assoc ct.1 (columns lc) with
             | Some s => forallb (cell_of ct.2) s
             | None => false
             end) schema_types.

(** A record with two detections, the second of which carries a survey tag
    (3) that the normalizer does not map; a service that knows this object
    and times out on another. *)
Definition odd_locus : Locus :=
  mkLocus
    (mkDataFrame [Num 0; Num 1]
       [("ant_mjd", [Num 59000.5; Num 59001.5]);
        ("ant_survey", [Num 1; Num 3]);
        ("ant_passband", [Str "g"; Str "R"]);
        ("ant_mag", [Num 19.5; Num 19.7]);
        ("ant_magerr", [Num 0.1; Num 0.1]);
        ("ant_maglim", [Num 20.5; Num 20.1])])
    (<["ztf_object_id" := Str "ZTF21abcdefg"]> ∅)
    (Num 150.25) (Num 2.5).

Definition odd_service (ztf_object_id : string) : lookup_outcome :=
  if String.eqb ztf_object_id "ZTF21abcdefg" then Found odd_locus
  else if String.eqb ztf_object_id "ZTF00timeout" then Failed (Other "TimeoutError" "timed out")
  else NotFound.

(** * Properties *)

(** ** The record normalizer *)

Lemma length_fillna s other : length (fillna s other) = length s.
Proof.
  revert other. induction s as [|v s IH]; intros [|o other]; simpl; auto.
Qed.

Lemma fillna_lookup s other i v :
  s !! i = Some v →
  fillna s other !! i = Some (if isna v then default v (other !! i) else v).
Proof.
  revert other i. induction s as [|x s IH]; intros other i Hs; [done|].
  destruct other as [|o other].
  - change (fillna (x :: s) []) with (x :: s). rewrite Hs.
    destruct i; simpl; by destruct (isna v).
  - destruct i as [|i]; simpl in *.
    + by inversion Hs.
    + by apply IH.
Qed.

(** The normal form of a successful [format_antares_lc]. *)
Lemma format_antares_lc_inv locus lc :
  format_antares_lc locus = Ok lc →
  ∃ mjd survey passband mag magerr maglim id,
    getitem (lightcurve locus) "ant_mjd" = Ok mjd ∧
    getitem (lightcurve locus) "ant_survey" = Ok survey ∧
    getitem (lightcurve locus) "ant_passband" = Ok passband ∧
    getitem (lightcurve locus) "ant_mag" = Ok mag ∧
    getitem (lightcurve locus) "ant_magerr" = Ok magerr ∧
    getitem (lightcurve locus) "ant_maglim" = Ok maglim ∧
    properties locus !! "ztf_object_id" = Some id ∧
    lc = mkDataFrame (List.repeat id (len (lightcurve locus)))
           [("mjd", mjd); ("non_detection", survey_map survey);
            ("band", band_map passband); ("magnitude", fillna mag maglim);
            ("magnitude_error", magerr)].
Proof.
  unfold format_antares_lc, getitem_list, getitem, dict_getitem. cbn [select].
  destruct (assoc "ant_mjd" _) as [mjd|] eqn:E1; [|done].
  destruct (assoc "ant_survey" _) as [survey|] eqn:E2; [|done].
  destruct (assoc "ant_passband" _) as [passband|] eqn:E3; [|done].
  destruct (assoc "ant_mag" _) as [mag|] eqn:E4; [|done].
  destruct (assoc "ant_magerr" _) as [magerr|] eqn:E5; [|done].
  destruct (assoc "ant_maglim" _) as [maglim|] eqn:E6; [|done].
  cbn.
  destruct (properties locus !! "ztf_object_id") as [id|] eqn:E7; [|done].
  cbn. unfold set_index, len. cbn. rewrite repeat_length, Nat.eqb_refl.
  intros [= <-]. by exists mjd, survey, passband, mag, magerr, maglim, id.
Qed.

Lemma format_antares_lc_ok locus mjd survey passband mag magerr maglim id :
  getitem (lightcurve locus) "ant_mjd" = Ok mjd →
  getitem (lightcurve locus) "ant_survey" = Ok survey →
  getitem (lightcurve locus) "ant_passband" = Ok passband →
  getitem (lightcurve locus) "ant_mag" = Ok mag →
  getitem (lightcurve locus) "ant_magerr" = Ok magerr →
  getitem (lightcurve locus) "ant_maglim" = Ok maglim →
  properties locus !! "ztf_object_id" = Some id →
  format_antares_lc locus =
    Ok (mkDataFrame (List.repeat id (len (lightcurve locus)))
          [("mjd", mjd); ("non_detection", survey_map survey);
           ("band", band_map passband); ("magnitude", fillna mag maglim);
           ("magnitude_error", magerr)]).
Proof.
  unfold format_antares_lc, getitem_list, getitem, dict_getitem. cbn [select].
  intros H1 H2 H3 H4 H5 H6 H7.
  destruct (assoc "ant_mjd" _) as [?|]; [injection H1 as ->|done].
  destruct (assoc "ant_survey" _) as [?|]; [injection H2 as ->|done].
  destruct (assoc "ant_passband" _) as [?|]; [injection H3 as ->|done].
  destruct (assoc "ant_mag" _) as [?|]; [injection H4 as ->|done].
  destruct (assoc "ant_magerr" _) as [?|]; [injection H5 as ->|done].
  destruct (assoc "ant_maglim" _) as [?|]; [injection H6 as ->|done].
  cbn. rewrite H7. cbn. unfold set_index, len. cbn.
  by rewrite repeat_length, Nat.eqb_refl.
Qed.

Lemma assoc_elem_of {A} k (l : list (string * A)) a :
  assoc k l = Some a → (k, a) ∈ l.
Proof.
  induction l as [|[k' a'] l IH]; simpl; [done|].
  destruct (String.eqb k k') eqn:E.
  - apply String.eqb_eq in E as ->. intros [= ->]. left.
  - intros H. right. by apply IH.
Qed.

Lemma wf_getitem_length df c s :
  wf_df df → getitem df c = Ok s → length s = len df.
Proof.
  intros [_ Hlen]. unfold getitem.
  destruct (assoc c (columns df)) as [s'|] eqn:E; [|done].
  intros [= ->]. apply assoc_elem_of in E.
  rewrite Forall_forall in Hlen. by apply (Hlen (c, s)).
Qed.

Lemma is_ok_true {A} (r : result A) : is_ok r = true → ∃ a, r = Ok a.
Proof. destruct r; [eauto|done]. Qed.

(** A record with the six raw columns and an identifier is accepted. *)
Lemma format_antares_lc_accepts locus :
  has_columns (lightcurve locus) raw_columns = true →
  is_Some (properties locus !! "ztf_object_id") →
  ∃ mjd survey passband mag magerr maglim id,
    getitem (lightcurve locus) "ant_mjd" = Ok mjd ∧
    getitem (lightcurve locus) "ant_survey" = Ok survey ∧
    getitem (lightcurve locus) "ant_passband" = Ok passband ∧
    getitem (lightcurve locus) "ant_mag" = Ok mag ∧
    getitem (lightcurve locus) "ant_magerr" = Ok magerr ∧
    getitem (lightcurve locus) "ant_maglim" = Ok maglim ∧
    properties locus !! "ztf_object_id" = Some id ∧
    format_antares_lc locus =
      Ok (mkDataFrame (List.repeat id (len (lightcurve locus)))
            [("mjd", mjd); ("non_detection", survey_map survey);
             ("band", band_map passband); ("magnitude", fillna mag maglim);
             ("magnitude_error", magerr)]).
Proof.
  unfold has_columns, raw_columns. cbn [forallb].
  rewrite !andb_true_iff. intros (H1 & H2 & H3 & H4 & H5 & H6 & _) [id Hid].
  apply is_ok_true in H1 as [mjd H1], H2 as [survey H2], H3 as [passband H3],
    H4 as [mag H4], H5 as [magerr H5], H6 as [maglim H6].
  exists mjd, survey, passband, mag, magerr, maglim, id.
  repeat split; try done. by apply format_antares_lc_ok.
Qed.

Lemma wf_demo_lightcurve : wf_df demo_lightcurve.
Proof.
  split.
  - apply (bool_decide_unpack _). by vm_compute.
  - repeat constructor.
Defined.

(** C2.  A record that has the six raw columns and an identifier is
    normalized, and in the result every row whose raw magnitude was missing
    carries, as its magnitude, the raw detection limit of that same row;
    the columns of the result are the five of the fixed schema, so the
    detection-limit column is gone.  (The measurement list need not even be
    non-empty.) *)
Theorem fallback_to_detection_limit locus mag maglim :
  wf_df (lightcurve locus) →
  has_columns (lightcurve locus) raw_columns = true →
  is_Some (properties locus !! "ztf_object_id") →
  getitem (lightcurve locus) "ant_mag" = Ok mag →
  getitem (lightcurve locus) "ant_maglim" = Ok maglim →
  ∃ lc magnitude,
    format_antares_lc locus = Ok lc ∧
    getitem lc "magnitude" = Ok magnitude ∧
    length magnitude = len (lightcurve locus) ∧
    len lc = len (lightcurve locus) ∧
    (∀ i m, mag !! i = Some m → isna m = true →
       ∃ l, maglim !! i = Some l ∧ magnitude !! i = Some l) ∧
    column_names lc = ["mjd"; "non_detection"; "band"; "magnitude"; "magnitude_error"] ∧
    "ant_maglim" ∉ column_names lc.
Proof.
  intros Hwf Hcols Hid Hmag Hlim.
  destruct (format_antares_lc_accepts locus Hcols Hid)
    as (mjd & survey & passband & mag' & magerr & maglim' & id
        & _ & _ & _ & Hmag' & _ & Hlim' & _ & Hfmt).
  rewrite Hmag in Hmag'. injection Hmag' as <-.
  rewrite Hlim in Hlim'. injection Hlim' as <-.
  pose proof (wf_getitem_length _ _ _ Hwf Hmag) as Lmag.
  pose proof (wf_getitem_length _ _ _ Hwf Hlim) as Llim.
  eexists _, (fillna mag maglim). split; [exact Hfmt|].
  split; [reflexivity|].
  split; [by rewrite length_fillna|].
  split; [unfold len; cbn; by rewrite repeat_length|].
  split; [|split; [reflexivity|]].
  - intros i m Hi Hna.
    assert (is_Some (maglim !! i)) as [l Hl].
    { apply lookup_lt_is_Some. rewrite Llim, <- Lmag. by eapply lookup_lt_Some. }
    exists l. split; [done|].
    rewrite (fillna_lookup _ _ _ _ Hi), Hna, Hl. done.
  - cbn. intros H. decompose_list_elem_of; discriminate.
Qed.

Lemma fallback_to_detection_limit_witness :
  ∃ lc magnitude,
    format_antares_lc demo_locus = Ok lc ∧
    getitem lc "magnitude" = Ok magnitude ∧
    length magnitude = len (lightcurve demo_locus) ∧
    len lc = len (lightcurve demo_locus) ∧
    (∀ i m, [Num 19.5; NaN] !! i = Some m → isna m = true →
       ∃ l, [Num 20.5; Num 20.1] !! i = Some l ∧ magnitude !! i = Some l) ∧
    column_names lc = ["mjd"; "non_detection"; "band"; "magnitude"; "magnitude_error"] ∧
    "ant_maglim" ∉ column_names lc.
Proof.
  apply (fallback_to_detection_limit demo_locus).
  - exact wf_demo_lightcurve.
  - reflexivity.
  - by eexists.
  - reflexivity.
  - reflexivity.
Defined.

Lemma no_absent_fillna mag maglim :
  length mag = length maglim →
  (∀ i m l, mag !! i = Some m → maglim !! i = Some l →
     isna m = true → isna l = false) →
  no_absent (fillna mag maglim).
Proof.
  revert maglim. induction mag as [|m mag IH]; intros [|l maglim] Hlen H;
    try discriminate; [constructor|].
  simpl. constructor.
  - destruct (isna m) eqn:E; [|done]. by apply (H 0%nat m l).
  - apply IH; [by injection Hlen|].
    intros i m' l' Hm Hl. by apply (H (S i)).
Qed.

(** C3 as stated fails: [blind_locus] is accepted and its one row keeps a
    missing magnitude, because the detection limit that fills it is missing
    too. *)
Lemma magnitude_absent_after_fallback :
  ∃ lc magnitude,
    format_antares_lc blind_locus = Ok lc ∧
    getitem lc "magnitude" = Ok magnitude ∧
    ¬ no_absent magnitude.
Proof.
  exists (mkDataFrame [Str "ZTF21abcdefg"]
            [("mjd", [Num 59000.5]); ("non_detection", [Bool true]);
             ("band", [Str "ztfg"]); ("magnitude", [NaN]);
             ("magnitude_error", [NaN])]), [NaN].
  split; [reflexivity|]. split; [reflexivity|].
  intros H. inversion H; discriminate.
Qed.

(** C3, amended.  For an accepted record in which every measurement without
    a magnitude has a detection limit, no row of the normalized table has a
    missing magnitude. *)
Theorem magnitude_present_when_limit_present locus mag maglim lc magnitude :
  wf_df (lightcurve locus) →
  getitem (lightcurve locus) "ant_mag" = Ok mag →
  getitem (lightcurve locus) "ant_maglim" = Ok maglim →
  (∀ i m l, mag !! i = Some m → maglim !! i = Some l →
     isna m = true → isna l = false) →
  format_antares_lc locus = Ok lc →
  getitem lc "magnitude" = Ok magnitude →
  no_absent magnitude.
Proof.
  intros Hwf Hmag Hlim Hpresent Hfmt Hcol.
  apply format_antares_lc_inv in Hfmt
    as (mjd & survey & passband & mag' & magerr & maglim' & id
        & _ & _ & _ & Hmag' & _ & Hlim' & _ & ->).
  rewrite Hmag in Hmag'. injection Hmag' as <-.
  rewrite Hlim in Hlim'. injection Hlim' as <-.
  injection Hcol as <-.
  apply no_absent_fillna; [|done].
  by rewrite (wf_getitem_length _ _ _ Hwf Hmag), (wf_getitem_length _ _ _ Hwf Hlim).
Qed.

Lemma magnitude_present_when_limit_present_witness :
  no_absent [Num 19.5; Num 20.1].
Proof.
  apply (magnitude_present_when_limit_present demo_locus
           [Num 19.5; NaN] [Num 20.5; Num 20.1]
           demo_lc).
  - exact wf_demo_lightcurve.
  - reflexivity.
  - reflexivity.
  - intros [|[|i]] m l Hm Hl Hna; simpl in *; try discriminate;
      injection Hm as <-; injection Hl as <-; done.
  - reflexivity.
  - reflexivity.
Defined.

(** C8.  When both normalizers accept a record, the record has an
    identifier property, every row label of the lightcurve table is that
    identifier, and the metadata table has one row, labelled with it (and
    holding it in its identifier column). *)
Theorem identifier_propagation locus lc meta :
  format_antares_lc locus = Ok lc →
  format_antares_meta locus = Ok meta →
  ∃ id,
    properties locus !! "ztf_object_id" = Some id ∧
    len lc = len (lightcurve locus) ∧
    index lc = List.repeat id (len (lightcurve locus)) ∧
    (∀ label, label ∈ index lc → label = id) ∧
    index meta = [id] ∧
    getitem meta "ztf_object_id" = Ok [id].
Proof.
  intros Hlc Hmeta.
  apply format_antares_lc_inv in Hlc
    as (mjd & survey & passband & mag & magerr & maglim & id
        & _ & _ & _ & _ & _ & _ & Hid & ->).
  exists id. split; [done|].
  split; [unfold len; cbn; by rewrite repeat_length|].
  split; [reflexivity|].
  split; [intros label Hl; cbn in Hl; by apply list_elem_of_In, repeat_spec in Hl|].
  revert Hmeta. unfold format_antares_meta, dict_getitem, dict_get.
  cbn. rewrite !Hid. cbn. intros [= <-]. split; reflexivity.
Qed.

Lemma identifier_propagation_witness :
  ∃ id,
    properties demo_locus !! "ztf_object_id" = Some id ∧
    2%nat = len (lightcurve demo_locus) ∧
    [Str "ZTF21abcdefg"; Str "ZTF21abcdefg"] = List.repeat id (len (lightcurve demo_locus)) ∧
    (∀ label, label ∈ [Str "ZTF21abcdefg"; Str "ZTF21abcdefg"] → label = id) ∧
    [Str "ZTF21abcdefg"] = [id] ∧
    Ok [Str "ZTF21abcdefg"] = Ok [id].
Proof.
  apply (identifier_propagation demo_locus
           demo_lc
           demo_meta).
  - reflexivity.
  - reflexivity.
Defined.

Lemma py_eqb_2_not_1 v : py_eqb v (Num 2) = true → py_eqb v (Num 1) = false.
Proof.
  destruct v as [| |q|s|[|]]; simpl; try done.
  intros H2. destruct (Qeq_bool q 1) eqn:H1; [|done].
  apply Qeq_bool_iff in H1, H2. rewrite H1 in H2. discriminate H2.
Qed.

Lemma survey_map1_spec v :
  (py_eqb v (Num 1) = true → survey_map1 v = Bool false) ∧
  (py_eqb v (Num 2) = true → survey_map1 v = Bool true) ∧
  (py_eqb v (Num 1) = false → py_eqb v (Num 2) = false → survey_map1 v = v).
Proof.
  unfold survey_map1. cbn [replace1]. repeat split.
  - by intros ->.
  - intros H2. by rewrite (py_eqb_2_not_1 _ H2), H2.
  - by intros -> ->.
Qed.

Lemma band_map1_spec v :
  (v ∈ [Str "g"; Str "G"] → band_map1 v = Str "ztfg") ∧
  (v ∈ [Str "r"; Str "R"] → band_map1 v = Str "ztfr") ∧
  (v ∈ [Str "i"; Str "I"] → band_map1 v = Str "ztfi") ∧
  (v ∉ raw_bands → band_map1 v = v).
Proof.
  repeat split.
  1-3: intros H; decompose_list_elem_of; subst; reflexivity.
  unfold raw_bands. rewrite !not_elem_of_cons.
  intros (Hg & HG & Hr & HR & Hi & HI & _).
  destruct v as [| |q|s|b]; try reflexivity.
  unfold band_map1. cbn [replace1 py_eqb].
  repeat match goal with
         | |- context [String.eqb s ?c] =>
             destruct (String.eqb_spec s c) as [->|_]; [done|]
         end.
  reflexivity.
Qed.

Lemma band_map1_vocabulary v : v ∈ raw_bands → band_map1 v ∈ ztf_bands.
Proof.
  intros H. unfold raw_bands in H. decompose_list_elem_of; subst;
    vm_compute; repeat constructor.
Qed.

(** C7.  In the table [format_antares_lc] returns, the [non_detection]
    cell of a row is [False] where the raw survey tag equals 1, [True]
    where it equals 2, and the raw tag itself otherwise; the [band] cell is
    ztfg for g and G, ztfr for r and R, ztfi for i and I, and the raw band
    itself otherwise.  Hence raw bands drawn from g, G, r, R, i, I give
    bands drawn from ztfg, ztfr, ztfi.  (Equality with 1 and 2 is Python's,
    under which 1.0 and [True] equal 1.) *)
Theorem value_mapping locus lc survey passband :
  format_antares_lc locus = Ok lc →
  getitem (lightcurve locus) "ant_survey" = Ok survey →
  getitem (lightcurve locus) "ant_passband" = Ok passband →
  ∃ non_detection band,
    getitem lc "non_detection" = Ok non_detection ∧
    getitem lc "band" = Ok band ∧
    length non_detection = length survey ∧
    length band = length passband ∧
    (∀ i v, survey !! i = Some v →
       (py_eqb v (Num 1) = true → non_detection !! i = Some (Bool false)) ∧
       (py_eqb v (Num 2) = true → non_detection !! i = Some (Bool true)) ∧
       (py_eqb v (Num 1) = false → py_eqb v (Num 2) = false →
          non_detection !! i = Some v)) ∧
    (∀ i v, passband !! i = Some v →
       (v ∈ [Str "g"; Str "G"] → band !! i = Some (Str "ztfg")) ∧
       (v ∈ [Str "r"; Str "R"] → band !! i = Some (Str "ztfr")) ∧
       (v ∈ [Str "i"; Str "I"] → band !! i = Some (Str "ztfi")) ∧
       (v ∉ raw_bands → band !! i = Some v)) ∧
    (Forall (λ v, v ∈ raw_bands) passband → Forall (λ v, v ∈ ztf_bands) band).
Proof.
  intros Hfmt Hsurvey Hband.
  apply format_antares_lc_inv in Hfmt
    as (mjd & survey' & passband' & mag & magerr & maglim & id
        & _ & Hsurvey' & Hband' & _ & _ & _ & _ & ->).
  rewrite Hsurvey in Hsurvey'. injection Hsurvey' as <-.
  rewrite Hband in Hband'. injection Hband' as <-.
  exists (survey_map survey), (band_map passband).
  split; [reflexivity|]. split; [reflexivity|].
  split; [apply length_map|]. split; [apply length_map|].
  split; [|split].
  - intros i v Hi.
    assert (survey_map survey !! i = Some (survey_map1 v)) as ->.
    { unfold survey_map, replace. by rewrite list_lookup_fmap, Hi. }
    destruct (survey_map1_spec v) as (H1 & H2 & H3).
    repeat split; intros; f_equal; auto.
  - intros i v Hi.
    assert (band_map passband !! i = Some (band_map1 v)) as ->.
    { unfold band_map, replace. by rewrite list_lookup_fmap, Hi. }
    destruct (band_map1_spec v) as (H1 & H2 & H3 & H4).
    repeat split; intros; f_equal; auto.
  - intros Hall. unfold band_map, replace. apply Forall_fmap.
    eapply Forall_impl; [exact Hall|]. intros v. apply band_map1_vocabulary.
Qed.

Lemma value_mapping_witness :
  ∃ non_detection band,
    Ok [Bool false; Bool true] = Ok non_detection ∧
    Ok [Str "ztfg"; Str "ztfr"] = Ok band ∧
    length non_detection = 2%nat ∧
    length band = 2%nat ∧
    (∀ i v, [Num 1; Num 2] !! i = Some v →
       (py_eqb v (Num 1) = true → non_detection !! i = Some (Bool false)) ∧
       (py_eqb v (Num 2) = true → non_detection !! i = Some (Bool true)) ∧
       (py_eqb v (Num 1) = false → py_eqb v (Num 2) = false →
          non_detection !! i = Some v)) ∧
    (∀ i v, [Str "g"; Str "R"] !! i = Some v →
       (v ∈ [Str "g"; Str "G"] → band !! i = Some (Str "ztfg")) ∧
       (v ∈ [Str "r"; Str "R"] → band !! i = Some (Str "ztfr")) ∧
       (v ∈ [Str "i"; Str "I"] → band !! i = Some (Str "ztfi")) ∧
       (v ∉ raw_bands → band !! i = Some v)) ∧
    (Forall (λ v, v ∈ raw_bands) [Str "g"; Str "R"] → Forall (λ v, v ∈ ztf_bands) band).
Proof.
  apply (value_mapping demo_locus
           demo_lc
           [Num 1; Num 2] [Str "g"; Str "R"]).
  - reflexivity.
  - reflexivity.
  - reflexivity.
Defined.

(** C5 as stated fails: the identifier is one of the ten properties, and
    when it is the one that is missing, labelling the row raises
    [KeyError]. *)
Lemma metadata_fails_without_identifier :
  properties anonymous_locus !! "ztf_object_id" = None ∧
  format_antares_meta anonymous_locus = Raise (KeyError "ztf_object_id").
Proof. split; reflexivity. Qed.

(** C5, amended.  [format_antares_meta] succeeds on every record whose
    properties hold the identifier.  The result has one row, labelled with
    the identifier, and twelve columns: the ten named properties, each
    holding the property's value or [None] when the key is missing, then
    the two coordinates. *)
Theorem metadata_defaults locus id :
  properties locus !! "ztf_object_id" = Some id →
  ∃ meta,
    format_antares_meta locus = Ok meta ∧
    len meta = 1%nat ∧
    index meta = [id] ∧
    column_names meta = meta_keys ++ ["ra"; "dec"] ∧
    (∀ key v, key ∈ meta_keys → properties locus !! key = Some v →
       getitem meta key = Ok [v]) ∧
    (∀ key, key ∈ meta_keys → properties locus !! key = None →
       getitem meta key = Ok [PyNone]) ∧
    getitem meta "ra" = Ok [ra locus] ∧
    getitem meta "dec" = Ok [dec locus].
Proof.
  intros Hid. eexists. split.
  { unfold format_antares_meta, dict_getitem. rewrite Hid. reflexivity. }
  split; [reflexivity|]. split; [reflexivity|]. split; [reflexivity|].
  split; [|split; [|split; reflexivity]].
  - intros key v Hkey Hv. unfold meta_keys in Hkey.
    decompose_list_elem_of; subst; cbn; unfold dict_get; by rewrite Hv.
  - intros key Hkey Hv. unfold meta_keys in Hkey.
    decompose_list_elem_of; subst; cbn; unfold dict_get; by rewrite Hv.
Qed.

Lemma metadata_defaults_witness :
  ∃ meta,
    format_antares_meta demo_locus = Ok meta ∧
    len meta = 1%nat ∧
    index meta = [Str "ZTF21abcdefg"] ∧
    column_names meta = meta_keys ++ ["ra"; "dec"] ∧
    (∀ key v, key ∈ meta_keys → properties demo_locus !! key = Some v →
       getitem meta key = Ok [v]) ∧
    (∀ key, key ∈ meta_keys → properties demo_locus !! key = None →
       getitem meta key = Ok [PyNone]) ∧
    getitem meta "ra" = Ok [ra demo_locus] ∧
    getitem meta "dec" = Ok [dec demo_locus].
Proof.
  apply (metadata_defaults demo_locus (Str "ZTF21abcdefg")). reflexivity.
Defined.

(** ** Concatenation and nesting *)

Lemma fold_collect_step futures acc :
  fold_left collect_step futures acc =
    (acc.1 ++ (omap to_option futures).*1, acc.2 ++ (omap to_option futures).*2).
Proof.
  revert acc. induction futures as [|[[lc meta]|e] futures IH]; intros [lcs metas].
  - simpl. by rewrite !app_nil_r.
  - simpl. rewrite IH. simpl. by rewrite <- !app_assoc.
  - simpl. by rewrite IH.
Qed.

Lemma mem_true c cs : mem c cs = true ↔ c ∈ cs.
Proof.
  unfold mem. rewrite existsb_exists. split.
  - intros (x & Hx & E). apply String.eqb_eq in E as ->. by apply list_elem_of_In.
  - intros H. exists c. split; [by apply list_elem_of_In|apply String.eqb_refl].
Qed.

Lemma elem_of_union_names c seen cs :
  c ∈ union_names seen cs ↔ c ∈ cs ∧ c ∉ seen.
Proof.
  revert seen. induction cs as [|c' cs IH]; intros seen; simpl.
  - rewrite !elem_of_nil. tauto.
  - destruct (mem c' seen) eqn:E.
    + apply mem_true in E. rewrite IH, elem_of_cons. split.
      * intros [? ?]. split; [by right|done].
      * intros [[->|?] ?]; [done|by split].
    + assert (c' ∉ seen) as Hc' by (intros ?%mem_true; congruence).
      rewrite !elem_of_cons, IH, not_elem_of_cons. split.
      * intros [->|[? [? ?]]]; [by split; [left|]|by split; [right|]].
      * intros [[->|?] ?]; [by left|].
        destruct (decide (c = c')) as [->|]; [by left|by right].
Qed.

Lemma assoc_tabulate {A} (f : string → A) c names :
  c ∈ names → assoc c (List.map (λ c', (c', f c')) names) = Some (f c).
Proof.
  induction names as [|c' names IH]; [by intros ?%elem_of_nil|].
  intros H. simpl. destruct (String.eqb_spec c c') as [->|Hne]; [done|].
  apply IH. apply elem_of_cons in H as [?|?]; [done|done].
Qed.

(** A column that one of the frames has is a column of the concatenation:
    the stack of that column over the frames. *)
Lemma pd_concat_getitem frames c df :
  df ∈ frames → c ∈ column_names df →
  ∃ all, pd_concat frames = Ok all ∧
    index all = List.concat (List.map index frames) ∧
    getitem all c = Ok (List.concat (List.map (column_or_nan c) frames)).
Proof.
  intros Hdf Hc. destruct frames as [|f frames]; [by apply elem_of_nil in Hdf|].
  eexists. split; [reflexivity|]. split; [reflexivity|].
  unfold getitem. cbn [columns].
  rewrite (assoc_tabulate (λ c, List.concat (List.map (column_or_nan c) (f :: frames)))); [done|].
  apply elem_of_union_names. split; [|apply not_elem_of_nil].
  apply list_elem_of_In, in_concat. exists (column_names df).
  split; [|by apply list_elem_of_In].
  apply in_map. by apply list_elem_of_In.
Qed.

Lemma label_eqb_refl v : label_eqb v v = true.
Proof.
  destruct v as [| |q|s|b]; simpl; try done.
  - by apply Qeq_bool_iff.
  - apply String.eqb_refl.
  - by destruct b.
Qed.

Lemma normalized_keyed_pair locus lc meta :
  format_antares_lc locus = Ok lc →
  format_antares_meta locus = Ok meta →
  ∃ id, properties locus !! "ztf_object_id" = Some id ∧ keyed_pair (lc, meta) id.
Proof.
  intros Hlc Hmeta.
  apply format_antares_lc_inv in Hlc
    as (mjd & survey & passband & mag & magerr & maglim & id
        & _ & _ & _ & _ & _ & _ & Hid & ->).
  exists id. split; [done|].
  revert Hmeta. unfold format_antares_meta, dict_getitem, dict_get.
  cbn. rewrite !Hid. cbn. intros [= <-].
  repeat split. unfold len. cbn. by rewrite repeat_length.
Qed.

Lemma keyed_pair_id p id : keyed_pair p id → pair_id p = id.
Proof. intros (_ & H & _). unfold pair_id. by rewrite H. Qed.

Lemma keyed_meta_index pairs :
  Forall (λ p, ∃ id, keyed_pair p id) pairs →
  List.concat (List.map index pairs.*2) = pair_id <$> pairs.
Proof.
  induction 1 as [|p pairs [id Hp] _ IH]; [done|].
  cbn. rewrite IH. rewrite (keyed_pair_id _ _ Hp).
  destruct Hp as (_ & -> & _). done.
Qed.

Lemma keyed_meta_column pairs :
  Forall (λ p, ∃ id, keyed_pair p id) pairs →
  List.concat (List.map (column_or_nan "ztf_object_id") pairs.*2) = pair_id <$> pairs.
Proof.
  induction 1 as [|p pairs [id Hp] _ IH]; [done|].
  cbn. rewrite IH. rewrite (keyed_pair_id _ _ Hp).
  destruct Hp as (_ & _ & Hc). unfold column_or_nan. by rewrite Hc.
Qed.

Lemma keyed_lightcurve_index pairs v :
  Forall (λ p, ∃ id, keyed_pair p id) pairs →
  v ∈ List.concat (List.map index pairs.*1) ↔
  ∃ p, p ∈ pairs ∧ v = pair_id p ∧ (0 < len p.1)%nat.
Proof.
  induction 1 as [|p pairs [id Hp] _ IH].
  - cbn. rewrite elem_of_nil. split; [done|]. by intros (p & ?%elem_of_nil & _).
  - cbn. rewrite elem_of_app, IH.
    assert (pair_id p = id) as Hid by by apply keyed_pair_id.
    destruct Hp as (Hi & _ & _). split.
    + intros [Hv|(q & Hq & Hv)].
      * exists p. split; [left|]. rewrite Hid. revert Hv. rewrite Hi.
        destruct (len p.1) as [|n]; [by intros ?%elem_of_nil|].
        intros ->%list_elem_of_In%repeat_spec. split; [done|lia].
      * exists q. split; [by right|done].
    + intros (q & Hq & Hv & Hpos). apply elem_of_cons in Hq as [->|Hq].
      * left. rewrite Hi, Hv, Hid.
        destruct (len p.1); [lia|]. simpl. left.
      * right. eauto.
Qed.

Lemma normalized_keyed pairs :
  Forall normalized pairs → Forall (λ p, ∃ id, keyed_pair p id) pairs.
Proof.
  intros H. eapply Forall_impl; [exact H|].
  intros [lc meta] (locus & Hlc & Hmeta).
  destruct (normalized_keyed_pair _ _ _ Hlc Hmeta) as (id & _ & Hk). eauto.
Qed.

(** The merge of a non-empty list of keyed pairs. *)
Lemma merge_keyed pairs :
  pairs ≠ [] →
  Forall (λ p, ∃ id, keyed_pair p id) pairs →
  ∃ lightcurves metas,
    pd_concat pairs.*1 = Ok lightcurves ∧
    pd_concat pairs.*2 = Ok metas ∧
    index lightcurves = List.concat (List.map index pairs.*1) ∧
    index metas = pair_id <$> pairs ∧
    getitem metas "ztf_object_id" = Ok (pair_id <$> pairs).
Proof.
  intros Hne Hkeyed. destruct pairs as [|p pairs]; [done|].
  pose proof (Forall_inv Hkeyed) as (id & _ & _ & Hcol).
  destruct (pd_concat_getitem ((p :: pairs).*2) "ztf_object_id" p.2)
    as (metas & Hmetas & Hindex & Hget).
  { left. }
  { apply assoc_elem_of in Hcol. unfold column_names.
    apply list_elem_of_fmap. by exists ("ztf_object_id", [id]). }
  eexists _, metas. split; [reflexivity|]. split; [exact Hmetas|].
  split; [reflexivity|].
  rewrite Hindex, Hget, keyed_meta_index, keyed_meta_column by done. done.
Qed.

Lemma length_range_index n : length (range_index n) = n.
Proof. unfold range_index. by rewrite length_map, length_seq. Qed.

(** C6, amended.  When every collected lightcurve table has at least one
    row, the identifiers of the top-level rows of the assembled dataset and
    the identifiers of the merged lightcurve rows are the same set, and
    every top-level row owns a (non-null) lightcurve sub-table. *)
Theorem nested_consistency pairs lightcurves metas :
  Forall normalized pairs →
  Forall (λ p : DataFrame * DataFrame, (0 < len p.1)%nat) pairs →
  pd_concat pairs.*1 = Ok lightcurves →
  pd_concat pairs.*2 = Ok metas →
  nested_consistent (reset_index (lcs_to_nested_df lightcurves metas)) lightcurves ∧
  ∃ packed,
    assoc "lightcurve" (nested (reset_index (lcs_to_nested_df lightcurves metas)))
      = Some packed ∧
    length packed = len (base (reset_index (lcs_to_nested_df lightcurves metas))) ∧
    Forall is_Some packed.
Proof.
  intros Hnorm Hrows HL HM.
  assert (pairs ≠ []) as Hne by (intros ->; discriminate HL).
  pose proof (normalized_keyed _ Hnorm) as Hkeyed.
  destruct (merge_keyed pairs Hne Hkeyed) as (L & M' & HL' & HM' & HiL & HiM & Hcol).
  rewrite HL in HL'. injection HL' as <-. rewrite HM in HM'. injection HM' as <-.
  assert (∀ v, v ∈ pair_id <$> pairs ↔ v ∈ index lightcurves) as Hsame.
  { intros v. rewrite HiL, keyed_lightcurve_index, list_elem_of_fmap by done. split.
    - intros (p & -> & Hp). exists p. split; [done|]. split; [done|].
      rewrite Forall_forall in Hrows. by apply Hrows.
    - intros (p & Hp & -> & _). by exists p. }
  split.
  - exists (pair_id <$> pairs). split; [exact Hcol|exact Hsame].
  - eexists. split; [reflexivity|]. cbn. unfold len. cbn.
    rewrite length_range_index, length_map. split; [done|].
    apply Forall_fmap, Forall_forall. intros v Hv.
    rewrite HiM in Hv. apply Hsame in Hv.
    change (is_Some (pack_rows lightcurves v)). unfold pack_rows. cbv zeta.
    assert (existsb (λ b : bool, b) (List.map (label_eqb v) (index lightcurves)) = true) as ->.
    { apply existsb_exists. exists true. split; [|done].
      apply in_map_iff. exists v. split; [apply label_eqb_refl|by apply list_elem_of_In]. }
    done.
Qed.

Lemma normalized_demo_pairs : Forall normalized demo_pairs.
Proof. constructor; [|constructor]. exists demo_locus. split; reflexivity. Defined.

Lemma nested_consistency_witness :
  ∃ lightcurves metas,
    nested_consistent (reset_index (lcs_to_nested_df lightcurves metas)) lightcurves ∧
    ∃ packed,
      assoc "lightcurve" (nested (reset_index (lcs_to_nested_df lightcurves metas)))
        = Some packed ∧
      length packed = len (base (reset_index (lcs_to_nested_df lightcurves metas))) ∧
      Forall is_Some packed.
Proof.
  eexists _, _. apply (nested_consistency demo_pairs).
  - exact normalized_demo_pairs.
  - constructor; [cbn; lia|constructor].
  - reflexivity.
  - reflexivity.
Defined.

(** C6 as stated fails: a record without measurements is normalized to a
    lightcurve table without rows and a metadata row; assembled next to
    [demo_locus], it gets a top-level row (with a null lightcurve) although
    no merged lightcurve row carries its identifier. *)
Lemma top_level_row_without_lightcurve_rows :
  ∃ lc1 meta1 lc2 meta2 lightcurves metas,
    format_antares_lc demo_locus = Ok lc1 ∧
    format_antares_meta demo_locus = Ok meta1 ∧
    format_antares_lc silent_locus = Ok lc2 ∧
    format_antares_meta silent_locus = Ok meta2 ∧
    len lc2 = 0%nat ∧
    pd_concat [lc1; lc2] = Ok lightcurves ∧
    pd_concat [meta1; meta2] = Ok metas ∧
    getitem (base (reset_index (lcs_to_nested_df lightcurves metas))) "ztf_object_id"
      = Ok [Str "ZTF21abcdefg"; Str "ZTF21zzzzzzz"] ∧
    index lightcurves = [Str "ZTF21abcdefg"; Str "ZTF21abcdefg"] ∧
    (∃ rows, assoc "lightcurve" (nested (reset_index (lcs_to_nested_df lightcurves metas)))
             = Some [Some rows; None]) ∧
    ¬ nested_consistent (reset_index (lcs_to_nested_df lightcurves metas)) lightcurves.
Proof.
  eexists _, _, _, _, _, _.
  split; [reflexivity|]. split; [reflexivity|].
  split; [reflexivity|]. split; [reflexivity|].
  split; [reflexivity|]. split; [reflexivity|]. split; [reflexivity|].
  split; [reflexivity|]. split; [reflexivity|].
  split; [eexists; reflexivity|].
  intros (top_ids & Hget & Hsame). vm_compute in Hget. injection Hget as <-.
  specialize (Hsame (Str "ZTF21zzzzzzz")) as [Hin _].
  assert (Str "ZTF21zzzzzzz" ∈ [Str "ZTF21abcdefg"; Str "ZTF21abcdefg"]) as Hbad.
  { apply Hin. right. left. }
  decompose_list_elem_of; discriminate.
Qed.

Lemma union_names_ext seen seen' l :
  (∀ c, c ∈ seen ↔ c ∈ seen') → union_names seen l = union_names seen' l.
Proof.
  revert seen seen'. induction l as [|c l IH]; intros seen seen' H; [done|].
  simpl. assert (mem c seen = mem c seen') as ->.
  { apply eq_true_iff_eq. rewrite !mem_true. apply H. }
  destruct (mem c seen'); [by apply IH|].
  f_equal. apply IH. intros c'. rewrite !elem_of_cons, H. done.
Qed.

Lemma union_names_app seen a b :
  union_names seen (a ++ b) = union_names seen a ++ union_names (a ++ seen) b.
Proof.
  revert seen. induction a as [|c a IH]; intros seen; [done|].
  simpl. destruct (mem c seen) eqn:E.
  - rewrite IH. f_equal. apply union_names_ext. intros c'.
    apply mem_true in E. rewrite elem_of_cons, !elem_of_app.
    split; [tauto|]. intros [->|[?|?]]; tauto.
  - simpl. f_equal. rewrite IH. f_equal. apply union_names_ext. intros c'.
    rewrite !elem_of_cons, !elem_of_app, !elem_of_cons. tauto.
Qed.

Lemma union_names_seen seen l :
  (∀ c, c ∈ l → c ∈ seen) → union_names seen l = [].
Proof.
  induction l as [|c l IH]; intros H; [done|]. simpl.
  assert (mem c seen = true) as -> by (apply mem_true, H; left).
  apply IH. intros c' Hc'. apply H. by right.
Qed.

Lemma union_names_fresh seen l :
  NoDup l → (∀ c, c ∈ l → c ∉ seen) → union_names seen l = l.
Proof.
  revert seen. induction l as [|c l IH]; intros seen Hnd H; [done|].
  apply NoDup_cons in Hnd as [Hc Hnd]. simpl.
  assert (mem c seen = false) as ->.
  { apply not_true_is_false. rewrite mem_true. apply H. left. }
  f_equal. apply IH; [done|]. intros c' Hc'.
  rewrite not_elem_of_cons. split; [by intros ->|]. apply H. by right.
Qed.

Lemma union_names_same names (l : list (list string)) :
  NoDup names → l ≠ [] → Forall (λ x, x = names) l →
  union_names [] (List.concat l) = names.
Proof.
  intros Hnd Hne Hall. destruct l as [|x l]; [done|].
  apply Forall_cons in Hall as [-> Hall]. cbn [List.concat].
  rewrite union_names_app, union_names_fresh, union_names_seen, app_nil_r; try done.
  - intros c (x & Hx & Hc)%list_elem_of_In%in_concat.
    rewrite Forall_forall in Hall. rewrite app_nil_r.
    rewrite <- (Hall x); by apply list_elem_of_In.
  - intros c _. apply not_elem_of_nil.
Qed.

(** Frames with one and the same columns stack column by column. *)
Lemma pd_concat_same_names frames names :
  frames ≠ [] → NoDup names →
  Forall (λ df, column_names df = names) frames →
  pd_concat frames =
    Ok (mkDataFrame (List.concat (List.map index frames))
          (List.map (λ c, (c, stacked c frames)) names)).
Proof.
  intros Hne Hnd Hall. destruct frames as [|f frames]; [done|].
  unfold pd_concat. rewrite (union_names_same names); try done.
  by apply Forall_fmap.
Qed.

Lemma normalized_schema p : normalized p → column_names p.1 = schema.
Proof.
  intros (locus & Hlc & _). destruct p as [lc meta]. simpl in *.
  by apply format_antares_lc_inv in Hlc
    as (? & ? & ? & ? & ? & ? & ? & _ & _ & _ & _ & _ & _ & _ & ->).
Qed.

(** ** Packing typed tables *)

Lemma uniform_const (t : arrow_type) l :
  Forall (λ x, x = t) l → uniform arrow_type_eqb l = true.
Proof.
  destruct 1 as [|a l -> Hl]; [done|]. simpl.
  apply forallb_forall. intros x Hx%list_elem_of_In.
  rewrite Forall_forall in Hl. rewrite (Hl x Hx). by destruct t.
Qed.

Lemma cells_of_types t s :
  forallb (cell_of t) s = true → Forall (λ x, x = t) (omap arrow_type_of s).
Proof.
  induction s as [|v s IH]; csimpl; [constructor|].
  intros [Hv Hs]%andb_prop. unfold cell_of in Hv.
  destruct (arrow_type_of v) as [t'|]; [|by apply IH].
  constructor; [by destruct t, t'|by apply IH].
Qed.

Lemma typed_column lc c t :
  typed lc = true → (c, t) ∈ schema_types →
  forallb (cell_of t) (column_or_nan c lc) = true.
Proof.
  unfold typed. intros [_ H]%andb_prop Hin.
  rewrite forallb_forall in H.
  apply list_elem_of_In in Hin. specialize (H (c, t) Hin). cbn in H.
  unfold column_or_nan. by destruct (assoc c (columns lc)).
Qed.

Lemma stacked_cells c t frames :
  Forall (λ lc, typed lc = true) frames → (c, t) ∈ schema_types →
  pa_array_converts (stacked c frames) = true.
Proof.
  intros Hall Hin. apply (uniform_const t), cells_of_types.
  unfold stacked. induction Hall as [|lc frames Hlc _ IH]; [done|].
  cbn. by rewrite forallb_app, (typed_column _ _ _ Hlc Hin), IH.
Qed.

Lemma typed_labels frames :
  Forall (λ lc, typed lc = true) frames →
  existsb is_numeric (List.concat (List.map index frames)) = false.
Proof.
  induction 1 as [|lc frames Hlc _ IH]; [done|].
  cbn. rewrite existsb_app, IH, orb_false_r.
  unfold typed in Hlc. apply andb_prop in Hlc as [Hlc _].
  induction (index lc) as [|v l IHl]; [done|].
  cbn in *. apply andb_prop in Hlc as [Hv Hl].
  rewrite (IHl Hl), orb_false_r. by destruct v.
Qed.

(** The merge of typed lightcurve tables packs. *)
Lemma pack_flat_typed pairs lightcurves :
  Forall normalized pairs →
  Forall (λ p : DataFrame * DataFrame, typed p.1 = true) pairs →
  pd_concat pairs.*1 = Ok lightcurves →
  pack_flat lightcurves = Ok tt.
Proof.
  intros Hnorm Htyped Hcat.
  assert (pairs ≠ []) as Hne by (intros ->; discriminate Hcat).
  assert (Forall (λ lc, typed lc = true) pairs.*1) as Hall by by apply Forall_fmap.
  rewrite (pd_concat_same_names _ schema) in Hcat.
  - injection Hcat as <-. unfold pack_flat. cbn [index columns].
    rewrite (typed_labels _ Hall), andb_false_r.
    unfold schema. cbn [List.map forallb snd].
    assert (∀ c t, (c, t) ∈ schema_types →
              pa_array_converts (stacked c pairs.*1) = true) as Hc.
    { intros c t. by apply stacked_cells. }
    rewrite (Hc "mjd" ArrowNumber), (Hc "non_detection" ArrowBool),
      (Hc "band" ArrowString), (Hc "magnitude" ArrowNumber),
      (Hc "magnitude_error" ArrowNumber); [done|..];
      unfold schema_types; repeat constructor.
  - by destruct pairs.
  - apply (bool_decide_unpack _). by vm_compute.
  - apply Forall_fmap. eapply Forall_impl; [exact Hnorm|].
    intros p Hp. by apply normalized_schema.
Qed.

(** ** The batch scheduler *)

Section PipelineProperties.

Variable get_by_ztf_object_id : string → lookup_outcome.
Variable as_completed :
  Z → list (result (DataFrame * DataFrame)) → list (result (DataFrame * DataFrame)).
Variable to_parquet : NestedFrame → string → bool → option exn.

(** Every submitted task completes exactly once, in some order. *)
Hypothesis as_completed_perm : ∀ w futures, as_completed w futures ≡ₚ futures.

Local Abbreviation query := (query_ztf_lightcurve get_by_ztf_object_id).
Local Abbreviation batch :=
  (query_ztf_lightcurves get_by_ztf_object_id as_completed to_parquet).
Local Abbreviation failed := (failures get_by_ztf_object_id).
Local Abbreviation succeeded := (successes get_by_ztf_object_id).
Local Abbreviation identifier_of := (normalized_identifier get_by_ztf_object_id).
Local Abbreviation collected := (arrived get_by_ztf_object_id as_completed).

Lemma length_successes ids :
  (length (succeeded ids) + length (failed ids))%nat = length ids.
Proof.
  unfold successes, failures.
  induction ids as [|id ids IH]; [done|].
  csimpl. destruct (query id); csimpl; lia.
Qed.

Lemma successes_nil ids :
  Forall (λ id, is_ok (query id) = false) ids → succeeded ids = [].
Proof.
  unfold successes. induction 1 as [|id ids Hid _ IH]; [done|].
  csimpl. destruct (query id); [done|]. exact IH.
Qed.

Lemma query_inv id p :
  query id = Ok p →
  ∃ locus, get_by_ztf_object_id id = Found locus ∧
    format_antares_lc locus = Ok p.1 ∧ format_antares_meta locus = Ok p.2.
Proof.
  unfold query_ztf_lightcurve.
  destruct (get_by_ztf_object_id id) as [locus| |e]; try done.
  destruct (format_antares_lc locus) as [lc|] eqn:Hlc; [|done].
  destruct (format_antares_meta locus) as [meta|] eqn:Hmeta; [|done].
  intros [= <-]. by exists locus.
Qed.

Lemma successes_normalized ids : Forall normalized (succeeded ids).
Proof.
  apply Forall_forall. intros p (r & Hr & Hp)%list_elem_of_omap.
  apply list_elem_of_fmap in Hr as (id & -> & _).
  destruct (query id) as [p'|] eqn:E; [|done].
  injection Hp as <-. apply query_inv in E as (locus & _ & ? & ?).
  by exists locus.
Qed.

Lemma successes_identifiers ids :
  pair_id <$> succeeded ids = omap identifier_of ids.
Proof.
  unfold successes. induction ids as [|id ids IH]; [done|].
  csimpl. unfold normalized_identifier at 1.
  destruct (query id) as [p|] eqn:E; [|exact IH].
  apply query_inv in E as (locus & -> & Hlc & Hmeta).
  destruct p as [lc meta]. simpl in Hlc, Hmeta.
  destruct (normalized_keyed_pair _ _ _ Hlc Hmeta) as (idv & -> & Hk).
  csimpl. by rewrite IH, (keyed_pair_id _ _ Hk).
Qed.

Lemma honest_identifiers ids :
  (∀ id locus, get_by_ztf_object_id id = Found locus →
     properties locus !! "ztf_object_id" = Some (Str id)) →
  omap identifier_of ids
  = Str <$> List.filter (λ id, is_ok (query id)) ids.
Proof.
  intros Hhonest. induction ids as [|id ids IH]; [done|].
  csimpl. unfold normalized_identifier at 1.
  destruct (query id) as [p|] eqn:E; simpl; [|exact IH].
  apply query_inv in E as (locus & G & _ & _).
  rewrite G, (Hhonest _ _ G). csimpl. by rewrite IH.
Qed.

Lemma arrived_successes ids w : collected ids w ≡ₚ succeeded ids.
Proof. unfold arrived, successes. by rewrite as_completed_perm. Qed.

Lemma batch_unfold ids save_path save_by_layer w :
  (0 < w)%Z →
  batch ids save_path save_by_layer w =
    (lightcurves ← pd_concat (collected ids w).*1;
     metas ← pd_concat (collected ids w).*2;
     _ ← pack_flat lightcurves;
     let nested_df := reset_index (lcs_to_nested_df lightcurves metas) in
     match save_path with
     | None => Ok nested_df
     | Some path =>
         match to_parquet nested_df path save_by_layer with
         | None => Ok nested_df
         | Some e => Raise e
         end
     end).
Proof.
  intros Hw. unfold query_ztf_lightcurves.
  destruct (Z.leb_spec w 0) as [?|_]; [lia|].
  rewrite fold_collect_step. reflexivity.
Qed.

(** C1, amended.  With a positive worker bound, a batch in which every
    task raises (the lookup raises, finds nothing, or returns a record a
    normalizer rejects) makes the call raise the error of merging zero
    frames, pandas' [ValueError: No objects to concatenate].  No dataset
    is returned, no per-item error surfaces, nothing is written. *)
Theorem empty_batch_raises ids save_path save_by_layer w :
  (0 < w)%Z →
  Forall (λ id, is_ok (query id) = false) ids →
  batch ids save_path save_by_layer w
  = Raise (ValueError "No objects to concatenate").
Proof.
  intros Hw Hfail. rewrite batch_unfold by done.
  pose proof (arrived_successes ids w) as Hperm.
  rewrite (successes_nil _ Hfail) in Hperm.
  apply Permutation_nil_r in Hperm. by rewrite Hperm.
Qed.


End PipelineProperties.

Lemma demo_as_completed_perm w futures : demo_as_completed w futures ≡ₚ futures.
Proof. symmetry. apply Permutation_rev. Defined.

Lemma empty_batch_raises_witness :
  query_ztf_lightcurves demo_service demo_as_completed demo_to_parquet
    ["ZTF00timeout"; "ZTF00unknown"; "ZTF00nameless"] (Some "out.parquet") true 4
  = Raise (ValueError "No objects to concatenate").
Proof.
  apply (empty_batch_raises demo_service demo_as_completed demo_to_parquet
           demo_as_completed_perm).
  - lia.
  - repeat constructor.
Defined.

(** C1 as stated fails on the class of the exception: the batch of three
    failing lookups raises, and what it raises is a [ValueError]; there is
    no [EmptyBatchError]. *)
Lemma empty_batch_error_is_a_value_error :
  ∃ e,
    query_ztf_lightcurves demo_service demo_as_completed demo_to_parquet
      ["ZTF00timeout"; "ZTF00unknown"; "ZTF00nameless"] None true 4 = Raise e ∧
    exn_class e = "ValueError" ∧
    exn_class e ≠ "EmptyBatchError".
Proof.
  exists (ValueError "No objects to concatenate").
  split; [reflexivity|]. split; [reflexivity|discriminate].
Qed.



(** The same batch, evaluated: the two rows arrive in reverse order, and
    the object without measurements has a null lightcurve. *)
Example demo_batch :
  ∃ nf,
    query_ztf_lightcurves demo_service demo_as_completed demo_to_parquet
      ["ZTF21abcdefg"; "ZTF00timeout"; "ZTF21zzzzzzz"; "ZTF00unknown"; "ZTF00nameless"]
      None true 4 = Ok nf ∧
    index (base nf) = [Num 0; Num 1] ∧
    getitem (base nf) "ztf_object_id" = Ok [Str "ZTF21zzzzzzz"; Str "ZTF21abcdefg"] ∧
    getitem (base nf) "num_alerts" = Ok [PyNone; Num 2] ∧
    nested nf =
      [("lightcurve",
        [None;
         Some [("mjd", [Num 59000.5; Num 59001.5]);
               ("non_detection", [Bool false; Bool true]);
               ("band", [Str "ztfg"; Str "ztfr"]);
               ("magnitude", [Num 19.5; Num 20.1]);
               ("magnitude_error", [Num 0.1; NaN])]])].
Proof. eexists. split; [vm_compute; reflexivity|]. repeat split. Qed.

(** ** The chart renderer *)

Lemma getitem_getitem_mask df mask c s :
  getitem df c = Ok s → getitem (getitem_mask df mask) c = Ok (where_ mask s).
Proof.
  unfold getitem, getitem_mask. cbn [columns].
  induction (columns df) as [|[c' s'] cols IH]; [done|].
  simpl. destruct (String.eqb c c'); [by intros [= ->]|exact IH].
Qed.

Lemma where_fmap {A B} (f : A → B) mask (s : list A) :
  where_ mask (f <$> s) = f <$> where_ mask s.
Proof.
  revert s. induction mask as [|[|] mask IH]; intros [|v s]; csimpl;
    try done; by rewrite IH.
Qed.

Lemma elem_of_where_ {A} mask (s : list A) x : x ∈ where_ mask s → x ∈ s.
Proof.
  revert s. induction mask as [|[|] mask IH]; intros [|v s]; simpl;
    try (by intros ?%elem_of_nil).
  - intros [->|?]%elem_of_cons; [left|right; by apply IH].
  - intros ?. right. by apply IH.
Qed.

(** The minimum of a column of numbers. *)
Lemma series_min_numbers (l : list Q) :
  l ≠ [] →
  ∃ m, series_min (Num <$> l) = Ok (Num m) ∧ m ∈ l ∧ ∀ t, t ∈ l → Qle m t.
Proof.
  induction l as [|a l IH]; [done|]. intros _.
  destruct l as [|b l].
  - exists a. split; [reflexivity|]. split; [left|].
    intros t ->%list_elem_of_singleton. apply Qle_refl.
  - destruct IH as (m & Hmin & Hin & Hle); [done|].
    change (Num <$> a :: b :: l) with (Num a :: (Num <$> b :: l)).
    cbn [series_min]. rewrite Hmin. cbn.
    destruct (Qle_bool a m) eqn:E.
    + apply Qle_bool_iff in E. exists a. split; [done|]. split; [left|].
      intros t [->|Ht]%elem_of_cons; [apply Qle_refl|].
      eapply Qle_trans; [exact E|by apply Hle].
    + exists m. split; [done|]. split; [by right|].
      intros t [->|Ht]%elem_of_cons; [|by apply Hle].
      apply Qlt_le_weak, Qnot_le_lt. intros Hle'.
      apply Qle_bool_iff in Hle'. congruence.
Qed.

Lemma series_sub_numbers (l : list Q) (m : Q) :
  series_sub (Num <$> l) (Num m) = Ok (Num <$> ((λ t, Qminus t m) <$> l)).
Proof.
  induction l as [|a l IH]; [done|]. csimpl. cbn. by rewrite IH.
Qed.

Lemma shifted_mjd_numbers df times non_detection :
  getitem df "mjd" = Ok (Num <$> times) →
  getitem df "non_detection" = Ok non_detection →
  detection_times non_detection times ≠ [] →
  ∃ t0,
    t0 ∈ detection_times non_detection times ∧
    (∀ t, t ∈ detection_times non_detection times → Qle t0 t) ∧
    shifted_mjd df = Ok (Num <$> ((λ t, Qminus t t0) <$> times)).
Proof.
  intros Hmjd Hnd Hdet.
  destruct (series_min_numbers _ Hdet) as (t0 & Hmin & Hin & Hle).
  exists t0. split; [done|]. split; [done|].
  unfold shifted_mjd. rewrite Hmjd, Hnd. cbn.
  rewrite (getitem_getitem_mask _ _ _ _ Hmjd). cbn.
  rewrite where_fmap. fold (detection_times non_detection times).
  rewrite Hmin. cbn. apply series_sub_numbers.
Qed.

Lemma assoc_set_assoc_eq {A} c (a : A) l : assoc c (set_assoc c a l) = Some a.
Proof.
  induction l as [|[c' a'] l IH]; simpl.
  - by rewrite String.eqb_refl.
  - destruct (String.eqb c c') eqn:E; simpl; by rewrite E.
Qed.

Lemma assoc_set_assoc_ne {A} c c' (a : A) l :
  c ≠ c' → assoc c' (set_assoc c a l) = assoc c' l.
Proof.
  intros Hne. induction l as [|[k a'] l IH]; simpl.
  - destruct (String.eqb_spec c' c) as [->|_]; done.
  - destruct (String.eqb_spec c k) as [->|_]; simpl.
    + destruct (String.eqb_spec c' k) as [->|_]; done.
    + by rewrite IH.
Qed.

Lemma set_assoc_names {A} c (a : A) l :
  is_Some (assoc c l) → (set_assoc c a l).*1 = l.*1.
Proof.
  induction l as [|[k a'] l IH]; simpl; [by intros [? ?]|].
  destruct (String.eqb c k); [done|]. intros H. csimpl. by rewrite IH.
Qed.

Section PlottingProperties.

Variable color_dict marker_dict : gmap string string.

Local Abbreviation plot := (plot_light_curve color_dict marker_dict).

(** One step of a computation in [M]: the leading [bind] and the primitive
    it runs. *)
Ltac step prim := unfold bind at 1; unfold prim at 1.

(** Line 54 followed by the drawing is the drawing, in "mjd" mode, of the
    updated table. *)
Lemma plot_relative_as_mjd h r df s ztf_id ax save_path time_axis :
  time_axis ≠ "mjd" →
  h !! r = Some df →
  shifted_mjd df = Ok s →
  plot r ztf_id ax save_path time_axis h
  = plot r ztf_id ax save_path "mjd" (<[r := setitem df "mjd" s]> h).
Proof.
  intros Hmode Hr Hs. unfold plot_light_curve.
  destruct (String.eqb_spec time_axis "mjd") as [?|_]; [done|].
  cbn [String.eqb Ascii.eqb Bool.eqb negb].
  assert ((do df <- load r;
           do mjd <- lift (shifted_mjd df);
           store_column r "mjd" mjd) h
          = (<[r := setitem df "mjd" s]> h, Ok tt)) as Hshift.
  { unfold store_column, bind, load, lift. by rewrite Hr, Hs, Hr. }
  unfold bind at 1. rewrite Hshift. reflexivity.
Qed.

(** In "mjd" mode nothing writes to the heap, whatever the drawing code
    returns or raises. *)
Lemma plot_heap_mjd h r ztf_id ax save_path :
  (plot r ztf_id ax save_path "mjd" h).1 = h.
Proof.
  unfold plot_light_curve. cbn [String.eqb Ascii.eqb Bool.eqb negb].
  step @ret. step load. destruct (h !! r) as [df|]; [|done].
  step @lift. destruct (getitem df "band") as [bands|]; [|done].
  step @lift. destruct (plot_bands _ _ _ _ _) as [drawn|]; [|done].
  destruct (truthy save_path); [|done]. by destruct ztf_id.
Qed.

Lemma plot_heap_relative h r df s ztf_id ax save_path time_axis :
  time_axis ≠ "mjd" →
  h !! r = Some df →
  shifted_mjd df = Ok s →
  (plot r ztf_id ax save_path time_axis h).1 = <[r := setitem df "mjd" s]> h.
Proof.
  intros Hmode Hr Hs.
  rewrite (plot_relative_as_mjd _ _ _ _ _ _ _ _ Hmode Hr Hs).
  apply plot_heap_mjd.
Qed.

Lemma plot_heap_raise h r df e ztf_id ax save_path time_axis :
  time_axis ≠ "mjd" →
  h !! r = Some df →
  shifted_mjd df = Raise e →
  plot r ztf_id ax save_path time_axis h = (h, Raise e).
Proof.
  intros Hmode Hr Hs. unfold plot_light_curve.
  destruct (String.eqb_spec time_axis "mjd") as [?|_]; [done|].
  cbn [negb]. unfold bind at 1. step load. rewrite Hr. step @lift. by rewrite Hs.
Qed.

(** C9.  In relative mode (any [time_axis] but "mjd"), on a table whose
    times are numbers and which has a detection, the caller's table ends
    up with the time column [t - t0], row by row, where [t0] is a
    detection's time and no detection is earlier: only the rows with
    [non_detection == False] determine the shift, and every row is
    shifted. *)
Theorem relative_time_axis h r df ztf_id ax save_path time_axis times non_detection :
  time_axis ≠ "mjd" →
  h !! r = Some df →
  getitem df "mjd" = Ok (Num <$> times) →
  getitem df "non_detection" = Ok non_detection →
  detection_times non_detection times ≠ [] →
  ∃ t0 df',
    t0 ∈ detection_times non_detection times ∧
    (∀ t, t ∈ detection_times non_detection times → Qle t0 t) ∧
    (plot r ztf_id ax save_path time_axis h).1 !! r = Some df' ∧
    df' = setitem df "mjd" (Num <$> ((λ t, Qminus t t0) <$> times)) ∧
    getitem df' "mjd" = Ok (Num <$> ((λ t, Qminus t t0) <$> times)).
Proof.
  intros Hmode Hr Hmjd Hnd Hdet.
  destruct (shifted_mjd_numbers _ _ _ Hmjd Hnd Hdet) as (t0 & Hin & Hle & Hs).
  exists t0. eexists. split; [done|]. split; [done|].
  rewrite (plot_heap_relative _ _ _ _ _ _ _ _ Hmode Hr Hs).
  rewrite lookup_insert_eq. split; [reflexivity|]. split; [reflexivity|].
  unfold getitem, setitem. cbn [columns]. by rewrite assoc_set_assoc_eq.
Qed.

(** C10.  The table is the caller's object and line 54 assigns to it.
    With [time_axis] equal to "mjd" the heap after the call is the heap
    before it.  With any other [time_axis], "absolute" included: when the
    right-hand side of line 54 evaluates to a column, the caller's table
    has that column as its [mjd] after the call, in the same position,
    the other columns, the row labels and every other object being
    untouched, and this whether the drawing that follows returns or
    raises: the call is the drawing, in "mjd" mode, of the table so
    updated.  When the right-hand side raises, the call raises that
    exception and the heap is unchanged. *)
Theorem plot_mutates_caller_table h r df ztf_id ax save_path time_axis :
  h !! r = Some df →
  (time_axis = "mjd" →
     (plot r ztf_id ax save_path time_axis h).1 = h) ∧
  (time_axis ≠ "mjd" →
     (∀ s, shifted_mjd df = Ok s →
        plot r ztf_id ax save_path time_axis h
        = plot r ztf_id ax save_path "mjd" (<[r := setitem df "mjd" s]> h) ∧
        (plot r ztf_id ax save_path time_axis h).1 = <[r := setitem df "mjd" s]> h ∧
        (plot r ztf_id ax save_path time_axis h).1 !! r = Some (setitem df "mjd" s) ∧
        getitem (setitem df "mjd" s) "mjd" = Ok s ∧
        column_names (setitem df "mjd" s) = column_names df ∧
        index (setitem df "mjd" s) = index df ∧
        (∀ c, c ≠ "mjd" → getitem (setitem df "mjd" s) c = getitem df c) ∧
        (∀ r', r' ≠ r →
           (plot r ztf_id ax save_path time_axis h).1 !! r' = h !! r')) ∧
     (∀ e, shifted_mjd df = Raise e →
        plot r ztf_id ax save_path time_axis h = (h, Raise e))).
Proof.
  intros Hr. split; [intros ->; apply plot_heap_mjd|].
  intros Hmode. split; [|intros e He; by apply plot_heap_raise with df].
  intros s Hs. split; [by apply plot_relative_as_mjd|].
  rewrite (plot_heap_relative _ _ _ _ _ _ _ _ Hmode Hr Hs).
  split; [reflexivity|]. split; [apply lookup_insert_eq|].
  split; [unfold getitem, setitem; cbn [columns]; by rewrite assoc_set_assoc_eq|].
  split.
  { unfold column_names, setitem. cbn [columns]. apply set_assoc_names.
    revert Hs. unfold shifted_mjd, getitem.
    destruct (assoc "mjd" (columns df)); [eauto|done]. }
  split; [reflexivity|].
  split.
  - intros c Hc. unfold getitem, setitem. cbn [columns].
    by rewrite assoc_set_assoc_ne.
  - intros r' Hr'. by rewrite lookup_insert_ne.
Qed.

End PlottingProperties.

Lemma relative_time_axis_witness :
  (plot_light_curve demo_color_dict demo_marker_dict
     1%positive (Some "ZTF21abcdefg") None None "relative" example_heap).1 !! 1%positive
  = Some (setitem example_lightcurve "mjd" [Num 0; Num 2; Num 5; Num (-5)]).
Proof.
  destruct (relative_time_axis demo_color_dict demo_marker_dict
              example_heap 1%positive example_lightcurve
              (Some "ZTF21abcdefg") None None "relative"
              [10%Q; 12%Q; 15%Q; 5%Q]
              [Bool false; Bool false; Bool false; Bool true]
              ltac:(discriminate) eq_refl eq_refl eq_refl ltac:(discriminate))
    as (t0 & df' & Hin & Hle & Hheap & -> & _).
  refine (eq_trans Hheap _). f_equal.
  assert (t0 = 10%Q) as ->; [|reflexivity].
  assert (Qle t0 10) as H10 by (apply Hle; left).
  change (t0 ∈ [10%Q; 12%Q; 15%Q]) in Hin.
  apply elem_of_cons in Hin as [->|Hin]; [reflexivity|].
  apply elem_of_cons in Hin as [->|Hin]; [by destruct H10|].
  apply list_elem_of_singleton in Hin as ->. by destruct H10.
Defined.

Lemma plot_mutates_caller_table_witness :
  (plot_light_curve demo_color_dict demo_marker_dict
     1%positive (Some "ZTF21abcdefg") None None "absolute" example_heap).1
  = <[1%positive := setitem example_lightcurve "mjd" [Num 0; Num 2; Num 5; Num (-5)]]>
      example_heap.
Proof.
  apply (plot_mutates_caller_table demo_color_dict demo_marker_dict
           example_heap 1%positive example_lightcurve
           (Some "ZTF21abcdefg") None None "absolute" eq_refl);
    [discriminate|reflexivity].
Defined.

(** The example of the specification, evaluated: what the call leaves in
    the caller's table and on the axes. *)
Example example_shift_evaluated :
  plot_light_curve demo_color_dict demo_marker_dict
    1%positive (Some "ZTF21abcdefg") None None "relative" example_heap
  = (<[1%positive := setitem example_lightcurve "mjd" [Num 0; Num 2; Num 5; Num (-5)]]>
       example_heap,
     Ok (ReturnAx
           [Errorbar [Num 0; Num 2; Num 5] [Num 19.5; Num 19.1; Num 19.8]
              [Num 0.1; Num 0.1; Num 0.2] "s" (Str "ztfr") "red";
            Scatter [Num (-5)] [Num 20.6] "red"])).
Proof. vm_compute. reflexivity. Qed.

(** Without a detection the minimum is [NaN], and so is every time after
    the shift. *)
Example example_shift_without_detection :
  shifted_mjd
    (mkDataFrame [Num 0; Num 1]
       [("mjd", [Num 10; Num 12]); ("non_detection", [Bool true; Bool true])])
  = Ok [NaN; NaN].
Proof. reflexivity. Qed.

(** With a save path the figure goes to [save_path + ztf_id + ".png"] and
    the call returns the string "none". *)
Example plot_saved :
  (plot_light_curve demo_color_dict demo_marker_dict
     1%positive (Some "ZTF21abcdefg") None (Some "plots/") "mjd" example_heap).2
  = Ok (ReturnNone "plots/ZTF21abcdefg.png"
          [Errorbar [Num 10; Num 12; Num 15] [Num 19.5; Num 19.1; Num 19.8]
             [Num 0.1; Num 0.1; Num 0.2] "s" (Str "ztfr") "red";
           Scatter [Num 5] [Num 20.6] "red"]).
Proof. vm_compute. reflexivity. Qed.

(** * Further properties *)

(** ** The record normalizer: acceptance, errors, what passes through *)

Lemma format_antares_lc_raises locus e :
  format_antares_lc locus = Raise e → exn_class e = "KeyError".
Proof.
  unfold format_antares_lc, getitem_list, getitem, dict_getitem. cbn [select].
  destruct (assoc "ant_mjd" _) as [mjd|]; [|by intros [= <-]].
  destruct (assoc "ant_survey" _) as [survey|]; [|by intros [= <-]].
  destruct (assoc "ant_passband" _) as [passband|]; [|by intros [= <-]].
  destruct (assoc "ant_mag" _) as [mag|]; [|by intros [= <-]].
  destruct (assoc "ant_magerr" _) as [magerr|]; [|by intros [= <-]].
  destruct (assoc "ant_maglim" _) as [maglim|]; [|by intros [= <-]].
  cbn.
  destruct (properties locus !! "ztf_object_id") as [id|]; [|by intros [= <-]].
  cbn. unfold set_index, len. cbn. by rewrite repeat_length, Nat.eqb_refl.
Qed.

Lemma format_antares_lc_ok_iff locus :
  is_ok (format_antares_lc locus) = true ↔
  has_columns (lightcurve locus) raw_columns = true ∧
  is_Some (properties locus !! "ztf_object_id").
Proof.
  split.
  - intros [lc Hlc]%is_ok_true.
    apply format_antares_lc_inv in Hlc
      as (mjd & survey & passband & mag & magerr & maglim & id
          & H1 & H2 & H3 & H4 & H5 & H6 & Hid & _).
    split; [|by eexists].
    unfold has_columns, raw_columns. cbn [forallb].
    by rewrite H1, H2, H3, H4, H5, H6.
  - intros [Hcols Hid].
    destruct (format_antares_lc_accepts _ Hcols Hid)
      as (? & ? & ? & ? & ? & ? & ? & _ & _ & _ & _ & _ & _ & _ & ->).
    reflexivity.
Qed.

Lemma format_antares_meta_ok_iff locus :
  is_ok (format_antares_meta locus) = true ↔
  is_Some (properties locus !! "ztf_object_id").
Proof.
  unfold format_antares_meta, dict_getitem.
  destruct (properties locus !! "ztf_object_id") as [id|]; cbn.
  - split; [by eexists|done].
  - split; [done|]. by intros [? ?].
Qed.

Lemma format_antares_meta_raises locus e :
  format_antares_meta locus = Raise e → e = KeyError "ztf_object_id".
Proof.
  unfold format_antares_meta, dict_getitem.
  destruct (properties locus !! "ztf_object_id") as [id|]; cbn; [done|].
  by intros [= <-].
Qed.

(** X1.  [format_antares_lc] accepts a record exactly when its lightcurve
    frame has the six raw columns and its properties hold the identifier;
    whatever else the frame and the properties hold plays no part.  A
    record it rejects makes it raise a [KeyError], never another class. *)
Theorem lightcurve_normalizer_acceptance locus :
  (is_ok (format_antares_lc locus) = true ↔
   has_columns (lightcurve locus) raw_columns = true ∧
   is_Some (properties locus !! "ztf_object_id")) ∧
  (∀ e, format_antares_lc locus = Raise e → exn_class e = "KeyError").
Proof.
  split; [apply format_antares_lc_ok_iff|apply format_antares_lc_raises].
Qed.

Lemma length_replace s a b : length (replace s a b) = length s.
Proof. unfold replace. apply length_map. Qed.

(** X2.  On a well-formed frame, what [format_antares_lc] returns is a
    well-formed frame with as many rows: the times and the magnitude
    errors are the raw columns, unchanged, and a magnitude that is present
    is kept as it is (the detection limit never overrides it). *)
Theorem normalizer_keeps_measurements locus lc mjd mag magerr :
  wf_df (lightcurve locus) →
  format_antares_lc locus = Ok lc →
  getitem (lightcurve locus) "ant_mjd" = Ok mjd →
  getitem (lightcurve locus) "ant_mag" = Ok mag →
  getitem (lightcurve locus) "ant_magerr" = Ok magerr →
  wf_df lc ∧
  len lc = len (lightcurve locus) ∧
  getitem lc "mjd" = Ok mjd ∧
  getitem lc "magnitude_error" = Ok magerr ∧
  ∃ magnitude,
    getitem lc "magnitude" = Ok magnitude ∧
    ∀ i m, mag !! i = Some m → isna m = false → magnitude !! i = Some m.
Proof.
  intros Hwf Hlc Hmjd Hmag Hmagerr.
  apply format_antares_lc_inv in Hlc
    as (mjd' & survey & passband & mag' & magerr' & maglim & id
        & H1 & H2 & H3 & H4 & H5 & H6 & _ & ->).
  rewrite Hmjd in H1. injection H1 as <-.
  rewrite Hmag in H4. injection H4 as <-.
  rewrite Hmagerr in H5. injection H5 as <-.
  assert (len {| index := List.repeat id (len (lightcurve locus));
                 columns := [("mjd", mjd); ("non_detection", survey_map survey);
                             ("band", band_map passband);
                             ("magnitude", fillna mag maglim);
                             ("magnitude_error", magerr)] |}
          = len (lightcurve locus)) as Hlen.
  { unfold len. cbn. by rewrite repeat_length. }
  split; [|split; [exact Hlen|]].
  - split.
    + apply (bool_decide_unpack _). by vm_compute.
    + rewrite Hlen. cbn [columns].
      repeat constructor; cbn [snd];
        rewrite ?length_fillna; unfold survey_map, band_map;
        rewrite ?length_replace; by eapply wf_getitem_length.
  - split; [reflexivity|]. split; [reflexivity|].
    exists (fillna mag maglim). split; [reflexivity|].
    intros i m Hi Hna. by rewrite (fillna_lookup _ _ _ _ Hi), Hna.
Qed.

Lemma normalizer_keeps_measurements_witness :
  wf_df demo_lc ∧
  len demo_lc = len (lightcurve demo_locus) ∧
  getitem demo_lc "mjd" = Ok [Num 59000.5; Num 59001.5] ∧
  getitem demo_lc "magnitude_error" = Ok [Num 0.1; NaN] ∧
  ∃ magnitude,
    getitem demo_lc "magnitude" = Ok magnitude ∧
    ∀ i m, [Num 19.5; NaN] !! i = Some m → isna m = false → magnitude !! i = Some m.
Proof.
  apply (normalizer_keeps_measurements demo_locus demo_lc).
  - exact wf_demo_lightcurve.
  - reflexivity.
  - reflexivity.
  - reflexivity.
  - reflexivity.
Defined.

Lemma band_map1_cases v : v ∈ raw_bands ∨ band_map1 v = v.
Proof.
  destruct v as [| |q|s|b]; try (right; reflexivity).
  unfold band_map1, raw_bands. cbn [replace1 py_eqb].
  repeat match goal with
         | |- context [String.eqb s ?c] =>
             destruct (String.eqb_spec s c) as [->|_];
               [left; repeat constructor|]
         end.
  right. reflexivity.
Qed.

Lemma band_map1_fixes_ztf v : v ∈ ztf_bands → band_map1 v = v.
Proof.
  intros H. unfold ztf_bands in H. decompose_list_elem_of; subst; reflexivity.
Qed.

Lemma band_map1_in_vocabulary v :
  band_map1 v ∈ ztf_bands ↔ v ∈ raw_bands ∨ v ∈ ztf_bands.
Proof.
  split.
  - intros H. destruct (band_map1_cases v) as [?|E]; [by left|].
    right. by rewrite E in H.
  - intros [H|H]; [by apply band_map1_vocabulary|].
    by rewrite band_map1_fixes_ztf.
Qed.

Lemma band_map1_idempotent v : band_map1 (band_map1 v) = band_map1 v.
Proof.
  destruct (band_map1_cases v) as [H|E]; [|by rewrite !E].
  by apply band_map1_fixes_ztf, band_map1_vocabulary.
Qed.

(** X4.  The band column of the normalized table lies within ztfg, ztfr,
    ztfi exactly when every raw band is one of g, G, r, R, i, I or is one
    of the three codes already: a raw band outside both sets is still
    there, as it was, after normalization.  Mapping the bands of the
    result again changes nothing. *)
Theorem band_vocabulary locus lc passband band :
  format_antares_lc locus = Ok lc →
  getitem (lightcurve locus) "ant_passband" = Ok passband →
  getitem lc "band" = Ok band →
  (Forall (λ v, v ∈ ztf_bands) band ↔
   Forall (λ v, v ∈ raw_bands ∨ v ∈ ztf_bands) passband) ∧
  (∀ i v, passband !! i = Some v → v ∉ raw_bands → band !! i = Some v) ∧
  band_map band = band.
Proof.
  intros Hlc Hraw Hband.
  apply format_antares_lc_inv in Hlc
    as (mjd & survey & passband' & mag & magerr & maglim & id
        & _ & _ & H3 & _ & _ & _ & _ & ->).
  rewrite Hraw in H3. injection H3 as <-. injection Hband as <-.
  split; [|split].
  - unfold band_map, replace. fold band_map1.
    change (List.map band_map1 passband) with (band_map1 <$> passband).
    rewrite Forall_fmap. apply Forall_iff. intros v. apply band_map1_in_vocabulary.
  - intros i v Hi Hv. unfold band_map, replace. fold band_map1.
    change (List.map band_map1 passband) with (band_map1 <$> passband).
    rewrite list_lookup_fmap, Hi. cbn. f_equal.
    by destruct (band_map1_cases v).
  - unfold band_map, replace. fold band_map1.
    rewrite List.map_map. apply List.map_ext. apply band_map1_idempotent.
Qed.

Lemma band_vocabulary_witness :
  (Forall (λ v, v ∈ ztf_bands) [Str "ztfg"; Str "ztfr"] ↔
   Forall (λ v, v ∈ raw_bands ∨ v ∈ ztf_bands) [Str "g"; Str "R"]) ∧
  (∀ i v, [Str "g"; Str "R"] !! i = Some v → v ∉ raw_bands →
     [Str "ztfg"; Str "ztfr"] !! i = Some v) ∧
  band_map [Str "ztfg"; Str "ztfr"] = [Str "ztfg"; Str "ztfr"].
Proof.
  apply (band_vocabulary demo_locus demo_lc); reflexivity.
Defined.

(** ** The single-object fetcher *)

Section FetcherProperties.

Variable get_by_ztf_object_id : string → lookup_outcome.

Local Abbreviation query := (query_ztf_lightcurve get_by_ztf_object_id).

(** X3.  What [query_ztf_lightcurve] does with each answer of the lookup:
    an exception of the lookup is raised unchanged; no match (the lookup
    returns [None]) raises [AttributeError]; a record is normalized into
    a pair exactly when it has the six raw columns and the identifier, and
    raises a [KeyError] otherwise. *)
Theorem single_fetch_outcomes ztf_object_id :
  match get_by_ztf_object_id ztf_object_id with
  | Failed e => query ztf_object_id = Raise e
  | NotFound => query ztf_object_id = Raise (AttributeError "lightcurve")
  | Found locus =>
      (is_ok (query ztf_object_id) = true ↔
       has_columns (lightcurve locus) raw_columns = true ∧
       is_Some (properties locus !! "ztf_object_id")) ∧
      (∀ lightcurve meta, query ztf_object_id = Ok (lightcurve, meta) →
         format_antares_lc locus = Ok lightcurve ∧
         format_antares_meta locus = Ok meta) ∧
      (∀ e, query ztf_object_id = Raise e → exn_class e = "KeyError")
  end.
Proof.
  unfold query_ztf_lightcurve.
  destruct (get_by_ztf_object_id ztf_object_id) as [locus| |e]; [|done|done].
  pose proof (format_antares_lc_ok_iff locus) as Hlc.
  pose proof (format_antares_meta_ok_iff locus) as Hmeta.
  destruct (format_antares_lc locus) as [lc|e] eqn:Elc; cbn.
  - destruct (format_antares_meta locus) as [meta|e] eqn:Emeta; cbn.
    + split; [|split].
      * split; [intros _; by apply Hlc|done].
      * by intros ?? [= <- <-].
      * done.
    + split; [|split].
      * split; [done|]. intros [_ Hid]. by apply Hmeta in Hid.
      * done.
      * intros e' [= <-]. by rewrite (format_antares_meta_raises _ _ Emeta).
  - split; [|split].
    + split; [done|]. intros H. by apply Hlc in H.
    + done.
    + intros e' [= <-]. by eapply format_antares_lc_raises.
Qed.

End FetcherProperties.

(** ** The dataset assembler: what a top-level row owns *)

Lemma where_app {A} m1 m2 (s1 s2 : list A) :
  length m1 = length s1 →
  where_ (m1 ++ m2) (s1 ++ s2) = where_ m1 s1 ++ where_ m2 s2.
Proof.
  revert s1. induction m1 as [|b m1 IH]; intros [|v s1] Hlen; try done.
  simpl. rewrite IH by (by injection Hlen). by destruct b.
Qed.

Lemma where_repeat {A} (b : bool) n (s : list A) :
  length s = n → where_ (List.repeat b n) s = if b then s else [].
Proof.
  revert s. induction n as [|n IH]; intros [|v s] Hlen; try done.
  - by destruct b.
  - simpl. rewrite IH by (by injection Hlen). by destruct b.
Qed.

Lemma length_column_or_nan c df :
  wf_df df → length (column_or_nan c df) = len df.
Proof.
  intros Hwf. unfold column_or_nan.
  destruct (assoc c (columns df)) as [s|] eqn:E; [|apply repeat_length].
  apply (wf_getitem_length df c); [done|]. unfold getitem. by rewrite E.
Qed.

(** The rows labelled [id] of a stack of keyed lightcurve tables are the
    rows of the tables whose identifier matches [id]. *)
Lemma where_stacked id c pairs :
  Forall (λ p, ∃ k, keyed_pair p k) pairs →
  Forall (λ p : DataFrame * DataFrame, wf_df p.1) pairs →
  where_ (List.map (label_eqb id) (List.concat (List.map index pairs.*1)))
    (stacked c pairs.*1)
  = stacked c (own id pairs).
Proof.
  intros Hkeyed Hwf. unfold stacked, own.
  induction pairs as [|p pairs IH]; [done|].
  apply Forall_cons in Hkeyed as [[k Hk] Hkeyed].
  apply Forall_cons in Hwf as [Hwfp Hwf].
  cbn. rewrite List.map_app, where_app.
  2:{ rewrite length_map. by rewrite length_column_or_nan. }
  rewrite IH by done. rewrite (keyed_pair_id _ _ Hk).
  destruct Hk as (Hi & _ & _). rewrite Hi.
  rewrite map_repeat, where_repeat by (by apply length_column_or_nan).
  by destruct (label_eqb id k).
Qed.

Lemma exists_stacked id pairs :
  Forall (λ p, ∃ k, keyed_pair p k) pairs →
  existsb (λ b : bool, b)
    (List.map (label_eqb id) (List.concat (List.map index pairs.*1)))
  = negb (forallb (λ lc, Nat.eqb (len lc) 0) (own id pairs)).
Proof.
  intros Hkeyed. unfold own.
  induction pairs as [|p pairs IH]; [done|].
  apply Forall_cons in Hkeyed as [[k Hk] Hkeyed].
  cbn. rewrite List.map_app, existsb_app, IH by done.
  rewrite (keyed_pair_id _ _ Hk). destruct Hk as (Hi & _ & _). rewrite Hi.
  rewrite map_repeat.
  destruct (label_eqb id k); cbn.
  - clear Hi. by destruct (len p.1); cbn.
  - clear Hi.
    assert (existsb (λ b : bool, b) (List.repeat false (len p.1)) = false) as ->; [|done].
    by induction (len p.1).
Qed.

(** The packed sub-table of label [id] in the merge of keyed pairs. *)
Lemma pack_rows_keyed pairs lightcurves id :
  Forall normalized pairs →
  Forall (λ p : DataFrame * DataFrame, wf_df p.1) pairs →
  pd_concat pairs.*1 = Ok lightcurves →
  pack_rows lightcurves id =
    if forallb (λ lc, Nat.eqb (len lc) 0) (own id pairs)
    then None
    else Some (List.map (λ c, (c, stacked c (own id pairs))) schema).
Proof.
  intros Hnorm Hwf Hcat.
  assert (pairs ≠ []) as Hne by (intros ->; discriminate Hcat).
  pose proof (normalized_keyed _ Hnorm) as Hkeyed.
  rewrite (pd_concat_same_names _ schema) in Hcat.
  - injection Hcat as <-. unfold pack_rows. cbn [index columns]. cbv zeta.
    rewrite exists_stacked by done.
    destruct (forallb _ (own id pairs)); [done|]. cbn [negb].
    unfold schema. cbn [List.map fst snd].
    by rewrite !where_stacked.
  - by destruct pairs.
  - apply (bool_decide_unpack _). by vm_compute.
  - apply Forall_fmap. eapply Forall_impl; [exact Hnorm|].
    intros p Hp. by apply normalized_schema.
Qed.

Lemma assemble_inv pairs nf :
  Forall normalized pairs →
  assemble pairs = Ok nf →
  ∃ lightcurves metas,
    pd_concat pairs.*1 = Ok lightcurves ∧
    pd_concat pairs.*2 = Ok metas ∧
    nf = reset_index (lcs_to_nested_df lightcurves metas) ∧
    index metas = pair_id <$> pairs ∧
    getitem (base nf) "ztf_object_id" = Ok (pair_id <$> pairs) ∧
    index (base nf) = range_index (length pairs).
Proof.
  intros Hnorm Hasm.
  assert (pairs ≠ []) as Hne by (intros ->; discriminate Hasm).
  destruct (merge_keyed pairs Hne (normalized_keyed _ Hnorm))
    as (L & Mt & HL & HM & _ & HiM & Hcol).
  revert Hasm. unfold assemble. rewrite HL, HM. cbn. intros [= <-].
  exists L, Mt. repeat split; try done.
  cbn. unfold len. by rewrite HiM, length_fmap.
Qed.

(** The nested column of the assembled dataset, row by row. *)
Lemma assemble_nested pairs nf :
  Forall normalized pairs →
  Forall (λ p : DataFrame * DataFrame, wf_df p.1) pairs →
  assemble pairs = Ok nf →
  nested nf =
    [("lightcurve",
      (λ p, if forallb (λ lc, Nat.eqb (len lc) 0) (own (pair_id p) pairs)
            then None
            else Some (List.map (λ c, (c, stacked c (own (pair_id p) pairs))) schema))
        <$> pairs)].
Proof.
  intros Hnorm Hwf Hasm.
  destruct (assemble_inv _ _ Hnorm Hasm) as (L & Mt & HL & _ & -> & HiM & _).
  cbn. rewrite HiM. f_equal. f_equal.
  change (List.map (pack_rows L) (pair_id <$> pairs))
    with (pack_rows L <$> (pair_id <$> pairs)).
  rewrite <- list_fmap_compose. apply list_fmap_ext. intros i p _. cbn.
  by apply pack_rows_keyed.
Qed.

(** X5.  In the assembled dataset the lightcurve cell of the top-level row
    of an object is the stack, column by column and in order of arrival,
    of the lightcurve tables of all the collected objects that carry its
    identifier; it is null when these tables have no row at all. *)
Theorem lightcurve_cell_of_a_row pairs nf i p :
  Forall normalized pairs →
  Forall (λ p : DataFrame * DataFrame, wf_df p.1) pairs →
  assemble pairs = Ok nf →
  pairs !! i = Some p →
  ∃ packed,
    assoc "lightcurve" (nested nf) = Some packed ∧
    length packed = length pairs ∧
    packed !! i =
      Some (if forallb (λ lc, Nat.eqb (len lc) 0) (own (pair_id p) pairs)
            then None
            else Some (List.map (λ c, (c, stacked c (own (pair_id p) pairs))) schema)).
Proof.
  intros Hnorm Hwf Hasm Hi.
  rewrite (assemble_nested _ _ Hnorm Hwf Hasm).
  eexists. split; [reflexivity|]. split; [apply length_fmap|].
  by rewrite list_lookup_fmap, Hi.
Qed.

Lemma wf_demo_lc : wf_df demo_lc.
Proof.
  split.
  - apply (bool_decide_unpack _). by vm_compute.
  - repeat constructor.
Defined.

Lemma lightcurve_cell_of_a_row_witness :
  ∃ packed,
    assoc "lightcurve"
      (nested (reset_index (lcs_to_nested_df demo_lc demo_meta))) = Some packed ∧
    length packed = length demo_pairs ∧
    packed !! 0%nat =
      Some (if forallb (λ lc, Nat.eqb (len lc) 0)
                 (own (pair_id (demo_lc, demo_meta)) demo_pairs)
            then None
            else Some (List.map
                         (λ c, (c, stacked c (own (pair_id (demo_lc, demo_meta)) demo_pairs)))
                         schema)).
Proof.
  apply (lightcurve_cell_of_a_row demo_pairs
           (reset_index (lcs_to_nested_df demo_lc demo_meta)) 0 (demo_lc, demo_meta)).
  - exact normalized_demo_pairs.
  - constructor; [exact wf_demo_lc|constructor].
  - reflexivity.
  - reflexivity.
Defined.

Lemma filter_none {A} (f : A → bool) l :
  (∀ x, x ∈ l → f x = false) → List.filter f l = [].
Proof.
  induction l as [|x l IH]; intros H; [done|]. simpl.
  rewrite (H x) by left. apply IH. intros y Hy. apply H. by right.
Qed.

(** Among pairs whose identifiers are distinct strings, a pair is the only
    one that carries its identifier. *)
Lemma own_distinct names pairs i p :
  NoDup names →
  pair_id <$> pairs = Str <$> names →
  pairs !! i = Some p →
  own (pair_id p) pairs = [p.1].
Proof.
  unfold own. revert names i.
  induction pairs as [|q pairs IH]; intros [|n names] i Hnd Hids Hi; try done.
  apply NoDup_cons in Hnd as [Hn Hnd].
  change (pair_id q :: (pair_id <$> pairs) = Str n :: (Str <$> names)) in Hids.
  injection Hids as Hq Hids.
  assert (∀ x, x ∈ pairs → ∃ m, m ∈ names ∧ pair_id x = Str m) as Hrest.
  { intros x Hx.
    assert (pair_id x ∈ pair_id <$> pairs) as Hin by by apply list_elem_of_fmap_2.
    rewrite Hids in Hin. apply list_elem_of_fmap in Hin as (m & ? & ?). eauto. }
  destruct i as [|i]; simpl in Hi.
  - injection Hi as ->. simpl. rewrite label_eqb_refl. cbn. f_equal.
    rewrite filter_none; [done|]. intros x (m & Hm & Hx)%Hrest.
    rewrite Hq, Hx. simpl. apply String.eqb_neq. by intros ->.
  - assert (p ∈ pairs) as (m & Hm & Hp)%Hrest by by eapply list_elem_of_lookup_2.
    cbn [List.filter].
    assert (label_eqb (pair_id p) (pair_id q) = false) as ->.
    { rewrite Hp, Hq. simpl. apply String.eqb_neq. by intros ->. }
    by eapply IH.
Qed.

Lemma normalized_columns p :
  normalized p →
  List.map (λ c, (c, column_or_nan c p.1)) schema = columns p.1.
Proof.
  intros (locus & Hlc & _). destruct p as [lc meta]. simpl in *.
  by apply format_antares_lc_inv in Hlc
    as (? & ? & ? & ? & ? & ? & ? & _ & _ & _ & _ & _ & _ & _ & ->).
Qed.

(** X6.  When the collected objects have distinct (string) identifiers,
    nesting loses nothing and mixes nothing: the lightcurve cell of each
    top-level row holds exactly the columns of that object's own
    normalized lightcurve table, and is null for an object without
    measurements. *)
Theorem nesting_round_trip names pairs nf i p :
  Forall normalized pairs →
  Forall (λ p : DataFrame * DataFrame, wf_df p.1) pairs →
  NoDup names →
  pair_id <$> pairs = Str <$> names →
  assemble pairs = Ok nf →
  pairs !! i = Some p →
  ∃ ids packed,
    getitem (base nf) "ztf_object_id" = Ok ids ∧
    ids !! i = Some (pair_id p) ∧
    assoc "lightcurve" (nested nf) = Some packed ∧
    packed !! i = Some (if Nat.eqb (len p.1) 0 then None else Some (columns p.1)).
Proof.
  intros Hnorm Hwf Hnd Hids Hasm Hi.
  destruct (assemble_inv _ _ Hnorm Hasm) as (_ & _ & _ & _ & _ & _ & Hcol & _).
  rewrite (assemble_nested _ _ Hnorm Hwf Hasm).
  eexists _, _. split; [exact Hcol|].
  split; [by rewrite list_lookup_fmap, Hi|].
  split; [reflexivity|].
  rewrite list_lookup_fmap, Hi. cbn.
  rewrite (own_distinct names pairs i p) by done. cbn.
  rewrite andb_true_r. destruct (Nat.eqb (len p.1) 0); [done|].
  do 2 f_equal. rewrite <- normalized_columns.
  - unfold stacked, schema. cbn. by rewrite !app_nil_r.
  - rewrite Forall_forall in Hnorm. apply Hnorm. by eapply list_elem_of_lookup_2.
Qed.

Lemma nesting_round_trip_witness :
  ∃ ids packed,
    getitem (base (reset_index (lcs_to_nested_df demo_lc demo_meta))) "ztf_object_id"
      = Ok ids ∧
    ids !! 0%nat = Some (pair_id (demo_lc, demo_meta)) ∧
    assoc "lightcurve" (nested (reset_index (lcs_to_nested_df demo_lc demo_meta)))
      = Some packed ∧
    packed !! 0%nat = Some (if Nat.eqb (len demo_lc) 0 then None else Some (columns demo_lc)).
Proof.
  apply (nesting_round_trip ["ZTF21abcdefg"] demo_pairs
           (reset_index (lcs_to_nested_df demo_lc demo_meta)) 0 (demo_lc, demo_meta)).
  - exact normalized_demo_pairs.
  - constructor; [exact wf_demo_lc|constructor].
  - apply (bool_decide_unpack _). by vm_compute.
  - reflexivity.
  - reflexivity.
  - reflexivity.
Defined.



(** ** The batch scheduler: order of the rows, saving *)

Section SchedulerProperties.

Variable get_by_ztf_object_id : string → lookup_outcome.
Variable as_completed :
  Z → list (result (DataFrame * DataFrame)) → list (result (DataFrame * DataFrame)).
Variable to_parquet : NestedFrame → string → bool → option exn.

Local Abbreviation query := (query_ztf_lightcurve get_by_ztf_object_id).
Local Abbreviation batch :=
  (query_ztf_lightcurves get_by_ztf_object_id as_completed to_parquet).
Local Abbreviation collected := (arrived get_by_ztf_object_id as_completed).

Lemma batch_assemble ids save_by_layer w nf :
  (0 < w)%Z →
  batch ids None save_by_layer w = Ok nf →
  assemble (collected ids w) = Ok nf.
Proof.
  intros Hw. unfold query_ztf_lightcurves, assemble.
  destruct (Z.leb_spec w 0) as [?|_]; [lia|].
  rewrite fold_collect_step. cbn [fst snd app].
  change (omap to_option (as_completed w (List.map query ids)))
    with (collected ids w).
  destruct (pd_concat (collected ids w).*1) as [L|]; [|done].
  destruct (pd_concat (collected ids w).*2) as [Mt|]; [|done].
  cbn. by destruct (pack_flat L) as [[]|].
Qed.

(** X9.  Saving is transparent.  A call with a save path does what the
    call without one does and then hands the dataset it would return, the
    path and the layer flag to the writer: it returns that same dataset
    when the write succeeds and raises the writer's exception, unchanged,
    when it fails; when the call without a path raises, the writer is not
    reached.  Without a path the layer flag plays no part. *)
Theorem saving_is_transparent ids path save_by_layer other_flag w :
  query_ztf_lightcurves get_by_ztf_object_id as_completed to_parquet
    ids (Some path) save_by_layer w =
    match query_ztf_lightcurves get_by_ztf_object_id as_completed to_parquet
            ids None other_flag w with
    | Ok nested_df =>
        match to_parquet nested_df path save_by_layer with
        | None => Ok nested_df
        | Some e => Raise e
        end
    | Raise e => Raise e
    end.
Proof.
  unfold query_ztf_lightcurves.
  destruct (w <=? 0)%Z; [done|].
  destruct (fold_left collect_step _ _) as [lightcurves metas].
  destruct (pd_concat lightcurves) as [L|]; [|reflexivity].
  destruct (pd_concat metas) as [Mt|]; [|reflexivity].
  cbn. by destruct (pack_flat L) as [[]|].
Qed.

Hypothesis as_completed_perm : ∀ w futures, as_completed w futures ≡ₚ futures.

Lemma collected_normalized ids w : Forall normalized (collected ids w).
Proof.
  apply Forall_forall. intros p (r & Hr & Hp)%list_elem_of_omap.
  rewrite as_completed_perm in Hr.
  apply list_elem_of_fmap in Hr as (id & -> & _).
  unfold query_ztf_lightcurve in Hp.
  destruct (get_by_ztf_object_id id) as [locus| |e]; try done.
  destruct (format_antares_lc locus) as [lc|] eqn:Hlc; [|done].
  destruct (format_antares_meta locus) as [meta|] eqn:Hmeta; [|done].
  injection Hp as <-. by exists locus.
Qed.

(** X10.  The returned dataset is the assembly of the collected pairs in
    the order in which their tasks completed, not in the order in which
    the identifiers were submitted: the rows are labelled 0, 1, ... and
    row [i] carries the identifier of the [i]-th task to return. *)
Theorem rows_in_completion_order ids save_by_layer w nf :
  (0 < w)%Z →
  batch ids None save_by_layer w = Ok nf →
  assemble (collected ids w) = Ok nf ∧
  index (base nf) = range_index (length (collected ids w)) ∧
  getitem (base nf) "ztf_object_id" = Ok (pair_id <$> collected ids w).
Proof.
  intros Hw Hbatch. pose proof (batch_assemble _ _ _ _ Hw Hbatch) as Hasm.
  split; [done|].
  by destruct (assemble_inv _ _ (collected_normalized ids w) Hasm)
    as (_ & _ & _ & _ & _ & _ & Hcol & Hidx).
Qed.

End SchedulerProperties.

Lemma rows_in_completion_order_witness :
  ∃ nf,
    query_ztf_lightcurves demo_service demo_as_completed demo_to_parquet
      ["ZTF21abcdefg"; "ZTF00timeout"; "ZTF21zzzzzzz"] None true 4 = Ok nf ∧
    assemble (arrived demo_service demo_as_completed
                ["ZTF21abcdefg"; "ZTF00timeout"; "ZTF21zzzzzzz"] 4) = Ok nf ∧
    index (base nf) = [Num 0; Num 1] ∧
    getitem (base nf) "ztf_object_id" = Ok [Str "ZTF21zzzzzzz"; Str "ZTF21abcdefg"].
Proof.
  eexists. split; [vm_compute; reflexivity|].
  apply (rows_in_completion_order demo_service demo_as_completed demo_to_parquet
           demo_as_completed_perm
           ["ZTF21abcdefg"; "ZTF00timeout"; "ZTF21zzzzzzz"] true 4).
  - lia.
  - vm_compute. reflexivity.
Defined.

(** ** The dataset assembler: the order of the pairs does not matter *)

Lemma normalized_meta_columns p :
  normalized p →
  List.map (λ c, (c, column_or_nan c p.2)) meta_columns = columns p.2 ∧
  column_names p.2 = meta_columns ∧
  Forall (λ c, length (column_or_nan c p.2) = 1%nat) meta_columns.
Proof.
  intros (locus & Hlc & Hmeta). destruct p as [lc meta]. simpl in *.
  apply format_antares_lc_inv in Hlc
    as (? & ? & ? & ? & ? & ? & id & _ & _ & _ & _ & _ & _ & Hid & _).
  revert Hmeta. unfold format_antares_meta, dict_getitem. rewrite Hid.
  cbn. intros [= <-]. split; [reflexivity|]. split; [reflexivity|].
  repeat constructor.
Qed.

Lemma lookup_concat_singletons {A B} (f : A → list B) l i x :
  Forall (λ y, length (f y) = 1%nat) l →
  l !! i = Some x →
  List.concat (List.map f l) !! i = f x !! 0%nat.
Proof.
  revert i. induction l as [|y l IH]; intros i Hall Hi; [done|].
  apply Forall_cons in Hall as [Hy Hall]. cbn.
  destruct (f y) as [|b [|??]] eqn:E; try done.
  destruct i as [|i]; simpl in Hi.
  - injection Hi as <-. by rewrite E.
  - simpl. by apply IH.
Qed.

Lemma map_seq_lookup {A B} (g : nat → B) (f : A → B) (l : list A) k :
  (∀ i x, l !! i = Some x → g (k + i)%nat = f x) →
  List.map g (seq k (length l)) = f <$> l.
Proof.
  revert k. induction l as [|x l IH]; intros k H; [done|].
  cbn. f_equal.
  - rewrite <- (H 0%nat x eq_refl). f_equal. lia.
  - apply IH. intros i y Hi. rewrite <- (H (S i) y Hi). f_equal. lia.
Qed.

Lemma string_identifiers pairs :
  Forall (λ p, ∃ s, pair_id p = Str s) pairs →
  ∃ names, pair_id <$> pairs = Str <$> names.
Proof.
  induction 1 as [|p pairs [s Hs] _ [names IH]]; [by exists []|].
  exists (s :: names). cbn. by rewrite Hs, IH.
Qed.

(** The rows of the assembled dataset, one per pair and in their order. *)
Lemma assemble_rows pairs nf :
  Forall normalized pairs →
  Forall (λ p : DataFrame * DataFrame, wf_df p.1) pairs →
  NoDup (pair_id <$> pairs) →
  Forall (λ p, ∃ s, pair_id p = Str s) pairs →
  assemble pairs = Ok nf →
  top_level_rows nf = row_of_pair <$> pairs.
Proof.
  intros Hnorm Hwf Hnd Hstr Hasm.
  destruct (string_identifiers _ Hstr) as [names Hnames].
  assert (NoDup names) as Hnd'.
  { rewrite Hnames in Hnd. by apply NoDup_fmap_1 in Hnd. }
  pose proof (assemble_nested _ _ Hnorm Hwf Hasm) as Hnested.
  destruct (assemble_inv _ _ Hnorm Hasm) as (L & Mt & _ & HM & -> & HiM & _ & Hidx).
  assert (pairs ≠ []) as Hne by (intros ->; discriminate Hasm).
  rewrite (pd_concat_same_names _ meta_columns) in HM.
  2:{ by destruct pairs. }
  2:{ apply (bool_decide_unpack _). by vm_compute. }
  2:{ apply Forall_fmap. eapply Forall_impl; [exact Hnorm|].
      intros p Hp. by apply normalized_meta_columns. }
  assert (columns Mt = List.map (λ c, (c, stacked c (pairs.*2))) meta_columns)
    as HcolsM by (by injection HM as <-).
  clear HM.
  unfold top_level_rows.
  assert (len (base (reset_index (lcs_to_nested_df L Mt))) = length pairs) as ->
    by (unfold len; by rewrite Hidx, length_range_index).
  rewrite Hnested.
  apply map_seq_lookup. intros i p Hi. cbn [Nat.add]. unfold row_of_pair.
  assert (normalized p) as Hp.
  { rewrite Forall_forall in Hnorm. apply Hnorm. by eapply list_elem_of_lookup_2. }
  destruct (normalized_meta_columns p Hp) as (Hcols & _ & _).
  f_equal.
  - unfold row_cells. rewrite <- Hcols.
    cbn [base reset_index columns lcs_to_nested_df add_nested].
    rewrite HcolsM, !List.map_map. apply List.map_ext_in. intros c Hc. cbn [fst snd]. f_equal.
    unfold stacked.
    rewrite (lookup_concat_singletons (column_or_nan c) pairs.*2 i p.2).
    + done.
    + apply Forall_fmap. eapply Forall_impl; [exact Hnorm|].
      intros q Hq. destruct (normalized_meta_columns q Hq) as (_ & _ & Hlen).
      rewrite Forall_forall in Hlen. apply Hlen. by apply list_elem_of_In.
    + by rewrite list_lookup_fmap, Hi.
  - cbn [List.map fst snd]. rewrite list_lookup_fmap, Hi. cbn.
    rewrite (own_distinct names pairs i p) by done. cbn.
    rewrite andb_true_r. do 3 f_equal.
    destruct (Nat.eqb (len p.1) 0); [done|]. f_equal.
    rewrite <- normalized_columns by done.
    unfold stacked, schema. cbn. by rewrite !app_nil_r.
Qed.

(** X8.  The merge is order independent.  For collected objects with
    distinct (string) identifiers, assembling the pairs in one order or in
    another gives datasets with the same rows, up to their order: the
    same metadata cells next to the same lightcurve cell.  (Only the row
    labels 0, 1, ... follow the order.) *)
Theorem assembly_order_independent pairs pairs' nf nf' :
  Forall normalized pairs →
  Forall (λ p : DataFrame * DataFrame, wf_df p.1) pairs →
  NoDup (pair_id <$> pairs) →
  Forall (λ p, ∃ s, pair_id p = Str s) pairs →
  pairs ≡ₚ pairs' →
  assemble pairs = Ok nf →
  assemble pairs' = Ok nf' →
  top_level_rows nf = row_of_pair <$> pairs ∧
  top_level_rows nf ≡ₚ top_level_rows nf'.
Proof.
  intros Hnorm Hwf Hnd Hstr Hperm Hasm Hasm'.
  rewrite (assemble_rows pairs nf) by done.
  rewrite (assemble_rows pairs' nf'); try done.
  - split; [done|]. by rewrite Hperm.
  - by rewrite <- Hperm.
  - by rewrite <- Hperm.
  - by rewrite <- Hperm.
  - by rewrite <- Hperm.
Qed.

Lemma normalized_two_pairs : Forall normalized two_pairs.
Proof.
  constructor; [exists demo_locus; split; reflexivity|].
  constructor; [exists silent_locus; split; reflexivity|constructor].
Defined.

Lemma wf_two_pairs : Forall (λ p : DataFrame * DataFrame, wf_df p.1) two_pairs.
Proof.
  constructor; [exact wf_demo_lc|]. constructor; [|constructor].
  split; [apply (bool_decide_unpack _); by vm_compute|repeat constructor].
Defined.

Lemma assembly_order_independent_witness :
  ∃ nf nf',
    assemble two_pairs = Ok nf ∧
    assemble (rev two_pairs) = Ok nf' ∧
    top_level_rows nf = row_of_pair <$> two_pairs ∧
    top_level_rows nf ≡ₚ top_level_rows nf'.
Proof.
  eexists _, _. split; [reflexivity|]. split; [reflexivity|].
  apply (assembly_order_independent two_pairs (rev two_pairs)).
  - exact normalized_two_pairs.
  - exact wf_two_pairs.
  - cbn. apply NoDup_cons. split; [|apply NoDup_singleton].
    intros H%list_elem_of_singleton. discriminate H.
  - constructor; [by eexists|]. constructor; [by eexists|constructor].
  - apply Permutation_rev.
  - reflexivity.
  - reflexivity.
Defined.

(** ** The chart renderer: edge cases of the shift, axes, styles *)

Lemma series_sub_nan (l : list Q) :
  series_sub (Num <$> l) NaN = Ok (List.repeat NaN (length l)).
Proof. induction l as [|a l IH]; [done|]. csimpl. cbn. by rewrite IH. Qed.

Lemma shifted_mjd_without_detection df times non_detection :
  getitem df "mjd" = Ok (Num <$> times) →
  getitem df "non_detection" = Ok non_detection →
  detection_times non_detection times = [] →
  shifted_mjd df = Ok (List.repeat NaN (length times)).
Proof.
  intros Hmjd Hnd Hdet. unfold shifted_mjd. rewrite Hmjd, Hnd. cbn.
  rewrite (getitem_getitem_mask _ _ _ _ Hmjd). cbn.
  rewrite where_fmap. fold (detection_times non_detection times).
  rewrite Hdet. cbn. apply series_sub_nan.
Qed.

Section RendererProperties.

Variable color_dict marker_dict : gmap string string.

Local Abbreviation plot := (plot_light_curve color_dict marker_dict).

(** X11.  In relative mode a table without any detection (no row with
    [non_detection == False]) loses its times: the minimum over no row is
    [NaN], and the caller's table is left with [NaN] in every row of its
    time column. *)
Theorem relative_axis_without_detection
    h r df ztf_id ax save_path time_axis times non_detection :
  time_axis ≠ "mjd" →
  h !! r = Some df →
  getitem df "mjd" = Ok (Num <$> times) →
  getitem df "non_detection" = Ok non_detection →
  detection_times non_detection times = [] →
  (plot r ztf_id ax save_path time_axis h).1 !! r
  = Some (setitem df "mjd" (List.repeat NaN (length times))).
Proof.
  intros Hmode Hr Hmjd Hnd Hdet.
  rewrite (plot_heap_relative _ _ _ _ _ _ _ _ _ _ Hmode Hr
             (shifted_mjd_without_detection _ _ _ Hmjd Hnd Hdet)).
  apply lookup_insert_eq.
Qed.

Lemma plot_band_onto df ax band :
  plot_band color_dict marker_dict df ax band
  = (λ drawn, ax ++ drawn) <$> plot_band color_dict marker_dict df [] band.
Proof.
  unfold plot_band.
  repeat match goal with
         | |- context [mbind _ ?m] =>
             lazymatch m with
             | getitem _ _ => destruct m; [cbn|reflexivity]
             | style_getitem _ _ => destruct m; [cbn|reflexivity]
             end
         end.
  by rewrite <- app_assoc.
Qed.

Lemma plot_bands_onto df ax bands :
  plot_bands color_dict marker_dict df ax bands
  = (λ drawn, ax ++ drawn) <$> plot_bands color_dict marker_dict df [] bands.
Proof.
  revert ax. induction bands as [|band bands IH]; intros ax.
  - cbn. by rewrite app_nil_r.
  - cbn [plot_bands]. rewrite plot_band_onto.
    destruct (plot_band color_dict marker_dict df [] band) as [d|e]; [|done].
    cbn. rewrite (IH (ax ++ d)), (IH d).
    destruct (plot_bands color_dict marker_dict df [] bands) as [d'|e]; [|done].
    cbn. by rewrite app_assoc.
Qed.

(** X12.  Drawing on axes that already hold artists keeps them, in front
    and untouched, and adds after them exactly what the same call draws on
    fresh axes; the heap, the file name and the exception, if any, are the
    same. *)
Theorem drawing_appends_to_axes h r ztf_id ax save_path time_axis :
  plot r ztf_id (Some ax) save_path time_axis h
  = ((plot r ztf_id None save_path time_axis h).1,
     drawn_onto ax (plot r ztf_id None save_path time_axis h).2).
Proof.
  unfold plot_light_curve. cbn [default].
  set (shift := if negb (String.eqb time_axis "mjd") then _ else _).
  unfold bind, load, lift, ret.
  destruct (shift h) as [h' [[]|e]]; [|done]. cbn [fst snd].
  destruct (h' !! r) as [df|]; [|done].
  destruct (getitem df "band") as [bands|]; [|done].
  rewrite plot_bands_onto.
  destruct (plot_bands color_dict marker_dict df [] (unique bands)) as [d|e]; [|done].
  cbn. destruct (truthy save_path); [|done]. by destruct ztf_id.
Qed.

Lemma style_getitem_cases (d : gmap string string) band :
  (∃ b v, band = Str b ∧ d !! b = Some v ∧ style_getitem d band = Ok v) ∨
  ((¬ ∃ b, band = Str b ∧ is_Some (d !! b)) ∧
   ∃ e, style_getitem d band = Raise e ∧ exn_class e = "KeyError").
Proof.
  destruct band as [| |q|b|x];
    try (right; split; [by intros (? & ? & _)|by eexists]).
  cbn. destruct (d !! b) as [v|] eqn:E.
  - left. by exists b, v.
  - right. split; [|by eexists].
    intros (b' & [= <-] & [? ?]). congruence.
Qed.

(** One band: two artists when both dictionaries know it, a [KeyError]
    when one of them does not. *)
Lemma plot_band_cases df ax band :
  has_columns df schema = true →
  (styled color_dict marker_dict band ∧
   ∃ a b, plot_band color_dict marker_dict df ax band = Ok (ax ++ [a; b])) ∨
  (¬ styled color_dict marker_dict band ∧
   ∃ e, plot_band color_dict marker_dict df ax band = Raise e ∧
        exn_class e = "KeyError").
Proof.
  unfold has_columns, schema. cbn [forallb]. rewrite !andb_true_iff.
  intros (H1 & H2 & H3 & H4 & H5 & _).
  apply is_ok_true in H1 as [mjd H1], H2 as [nd H2], H3 as [bands H3],
    H4 as [mag H4], H5 as [magerr H5].
  unfold plot_band. rewrite H3. cbn.
  rewrite !(getitem_getitem_mask _ _ _ _ H2). cbn.
  rewrite !(getitem_getitem_mask _ _ _ _ (getitem_getitem_mask _ _ _ _ H1)).
  rewrite !(getitem_getitem_mask _ _ _ _ (getitem_getitem_mask _ _ _ _ H4)).
  rewrite !(getitem_getitem_mask _ _ _ _ (getitem_getitem_mask _ _ _ _ H5)).
  cbn.
  destruct (style_getitem_cases marker_dict band)
    as [(b & fmt & -> & Hm & ->)|(Hno & e & -> & He)].
  - destruct (style_getitem_cases color_dict (Str b))
      as [(b' & color & [= <-] & Hc & ->)|(Hno & e & -> & He)].
    + left. split; [exists b; by rewrite Hm, Hc|].
      cbn. rewrite <- app_assoc. by eexists _, _.
    + right. split; [|by exists e].
      intros (b' & [= <-] & _ & Hc). apply Hno. by exists b.
  - right. split; [|by exists e].
    intros (b & -> & Hm & _). apply Hno. by exists b.
Qed.

Lemma plot_bands_cases df ax bands :
  has_columns df schema = true →
  (Forall (styled color_dict marker_dict) bands ∧
   ∃ drawn, plot_bands color_dict marker_dict df ax bands = Ok (ax ++ drawn) ∧
            length drawn = (2 * length bands)%nat) ∨
  (¬ Forall (styled color_dict marker_dict) bands ∧
   ∃ e, plot_bands color_dict marker_dict df ax bands = Raise e ∧
        exn_class e = "KeyError").
Proof.
  intros Hcols. revert ax. induction bands as [|band bands IH]; intros ax.
  - left. split; [constructor|]. exists []. by rewrite app_nil_r.
  - cbn [plot_bands].
    destruct (plot_band_cases df ax band Hcols)
      as [(Hs & a & b & ->)|(Hno & e & -> & He)].
    + cbn. destruct (IH (ax ++ [a; b])) as [(Hall & d & -> & Hlen)|(Hno & e & -> & He)].
      * left. split; [by constructor|]. exists ([a; b] ++ d).
        split; [by rewrite app_assoc|]. rewrite length_app, Hlen. cbn. lia.
      * right. split; [|by exists e]. by intros [_ ?]%Forall_cons.
    + right. split; [|by exists e]. by intros [? _]%Forall_cons.
Qed.

Lemma unique_from_elem seen s u : u ∈ unique_from seen s → u ∈ s.
Proof.
  revert seen. induction s as [|v s IH]; intros seen; [done|]. simpl.
  destruct (existsb (label_eqb v) seen).
  - intros H. right. by eapply IH.
  - intros [->|H]%elem_of_cons; [left|right; by eapply IH].
Qed.

Lemma unique_from_covers seen s v :
  v ∈ s →
  (∃ u, u ∈ seen ∧ label_eqb v u = true) ∨
  (∃ u, u ∈ unique_from seen s ∧ label_eqb v u = true).
Proof.
  revert seen. induction s as [|x s IH]; intros seen; [by intros ?%elem_of_nil|].
  intros [->|Hv]%elem_of_cons; simpl.
  - destruct (existsb (label_eqb x) seen) eqn:E.
    + left. apply existsb_exists in E as (u & Hu & E).
      exists u. split; [by apply list_elem_of_In|done].
    + right. exists x. split; [left|apply label_eqb_refl].
  - destruct (existsb (label_eqb x) seen) eqn:E.
    + by apply IH.
    + destruct (IH (x :: seen) Hv) as [(u & [->|Hu]%elem_of_cons & Hl)|(u & Hu & Hl)].
      * right. exists x. split; [left|done].
      * left. by exists u.
      * right. exists u. split; [by right|done].
Qed.

Lemma styled_label_eqb v u :
  label_eqb v u = true → styled color_dict marker_dict u →
  styled color_dict marker_dict v.
Proof.
  intros Hl (b & -> & Hm & Hc).
  destruct v as [| |q|b'|x]; try done.
  simpl in Hl. apply String.eqb_eq in Hl as ->. by exists b.
Qed.

Lemma styled_unique bands :
  Forall (styled color_dict marker_dict) (unique bands) ↔
  Forall (styled color_dict marker_dict) bands.
Proof.
  rewrite !Forall_forall. split.
  - intros H v Hv.
    destruct (unique_from_covers [] bands v Hv)
      as [(u & ?%elem_of_nil & _)|(u & Hu & Hl)]; [done|].
    eapply styled_label_eqb; [exact Hl|]. by apply H.
  - intros H u Hu. apply H. by eapply unique_from_elem.
Qed.

(** X13.  In "mjd" mode without a save path, on a table that has the five
    columns of the schema: whenever the call returns, every band of the
    table is a string that both style dictionaries know, and what is
    returned is the axes with two more artists (an error-bar series, a
    scatter of the upper limits) for each distinct band.  A table with a
    band that a dictionary does not know never gets its chart. *)
Theorem drawing_needs_styled_bands h r df ztf_id ax bands returned :
  h !! r = Some df →
  has_columns df schema = true →
  getitem df "band" = Ok bands →
  (plot r ztf_id ax None "mjd" h).2 = Ok returned →
  Forall (styled color_dict marker_dict) bands ∧
  ∃ drawn, returned = ReturnAx (default [] ax ++ drawn) ∧
           length drawn = (2 * length (unique bands))%nat.
Proof.
  intros Hr Hcols Hbands.
  unfold plot_light_curve. cbn [String.eqb Ascii.eqb Bool.eqb negb truthy].
  unfold bind, load, lift, ret. rewrite Hr, Hbands.
  rewrite <- styled_unique.
  destruct (plot_bands_cases df (default [] ax) (unique bands) Hcols)
    as [(Hall & d & -> & Hlen)|(Hno & e & -> & He)]; cbn; [|done].
  intros [= <-]. split; [done|]. by exists d.
Qed.

Lemma set_assoc_set_assoc {A} c (a b : A) l :
  set_assoc c b (set_assoc c a l) = set_assoc c b l.
Proof.
  induction l as [|[k x] l IH]; simpl.
  - by rewrite String.eqb_refl.
  - destruct (String.eqb c k) eqn:E; simpl; rewrite E; [done|by rewrite IH].
Qed.

Lemma Qminus_zero (x z : Q) : Qeq z 0 → Qeq (Qminus x z) x.
Proof. intros H. unfold Qminus. rewrite H. apply Qplus_0_r. Qed.

(** Shifting shifted times: the least detection time is then zero. *)
Lemma shift_twice (times det : list Q) (t0 t1 : Q) :
  t0 ∈ det → (∀ t, t ∈ det → Qle t0 t) →
  t1 ∈ (λ t, Qminus t t0) <$> det →
  (∀ t, t ∈ (λ t, Qminus t t0) <$> det → Qle t1 t) →
  Forall2 Qeq ((λ t, Qminus t t1) <$> ((λ t, Qminus t t0) <$> times))
    ((λ t, Qminus t t0) <$> times).
Proof.
  intros Hin0 Hle0 Hin1 Hle1.
  assert (Qeq t1 0) as Hzero.
  { apply Qle_antisym.
    - rewrite <- (Qplus_opp_r t0). apply Hle1.
      apply list_elem_of_fmap. by exists t0.
    - apply list_elem_of_fmap in Hin1 as (t & -> & Ht).
      rewrite <- (Qplus_opp_r t0). unfold Qminus.
      apply Qplus_le_compat; [by apply Hle0|apply Qle_refl]. }
  apply Forall2_fmap_l, Forall_Forall2_diag, Forall_forall.
  intros x _. by apply Qminus_zero.
Qed.

(** X15.  Relative mode does not accumulate: on numeric times with a
    detection, a second call in relative mode on the table the first call
    left behind shifts by the least detection time of that table, which is
    zero, and leaves every time at the value it had (the values are equal
    as numbers). *)
Theorem relative_axis_idempotent
    h r df ztf_id ax save_path time_axis ztf_id' ax' save_path' time_axis'
    times non_detection :
  time_axis ≠ "mjd" →
  time_axis' ≠ "mjd" →
  h !! r = Some df →
  getitem df "mjd" = Ok (Num <$> times) →
  getitem df "non_detection" = Ok non_detection →
  detection_times non_detection times ≠ [] →
  ∃ once twice,
    (plot r ztf_id ax save_path time_axis h).1 !! r
      = Some (setitem df "mjd" (Num <$> once)) ∧
    (plot r ztf_id' ax' save_path' time_axis'
       (plot r ztf_id ax save_path time_axis h).1).1 !! r
      = Some (setitem df "mjd" (Num <$> twice)) ∧
    Forall2 Qeq twice once.
Proof.
  intros Hmode Hmode' Hr Hmjd Hnd Hdet.
  destruct (shifted_mjd_numbers _ _ _ Hmjd Hnd Hdet) as (t0 & Hin0 & Hle0 & Hs0).
  set (once := (λ t, Qminus t t0) <$> times).
  set (df1 := setitem df "mjd" (Num <$> once)).
  assert (getitem df1 "mjd" = Ok (Num <$> once)) as Hmjd1.
  { unfold getitem, df1, setitem. cbn [columns]. by rewrite assoc_set_assoc_eq. }
  assert (getitem df1 "non_detection" = Ok non_detection) as Hnd1.
  { rewrite <- Hnd. unfold getitem, df1, setitem. cbn [columns].
    by rewrite assoc_set_assoc_ne. }
  assert (detection_times non_detection once
          = (λ t, Qminus t t0) <$> detection_times non_detection times) as Hdet1.
  { unfold detection_times, once. apply where_fmap. }
  assert (detection_times non_detection once ≠ []) as Hne1.
  { rewrite Hdet1. by destruct (detection_times non_detection times). }
  destruct (shifted_mjd_numbers _ _ _ Hmjd1 Hnd1 Hne1) as (t1 & Hin1 & Hle1 & Hs1).
  exists once, ((λ t, Qminus t t1) <$> once).
  pose proof (plot_heap_relative color_dict marker_dict _ _ _ _ ztf_id ax save_path _
                Hmode Hr Hs0) as Hh1.
  rewrite Hh1. split; [apply lookup_insert_eq|]. split.
  - rewrite (plot_heap_relative color_dict marker_dict _ r df1 _ ztf_id' ax' save_path' _
               Hmode' (lookup_insert_eq _ _ _) Hs1).
    rewrite lookup_insert_eq. f_equal. unfold df1, setitem. cbn [index columns].
    by rewrite set_assoc_set_assoc.
  - rewrite Hdet1 in Hin1, Hle1. by eapply shift_twice.
Qed.

End RendererProperties.

Lemma relative_axis_without_detection_witness :
  (plot_light_curve demo_color_dict demo_marker_dict
     1%positive (Some "ZTF21abcdefg") None None "relative"
     {[ 1%positive := limits_lightcurve ]}).1 !! 1%positive
  = Some (setitem limits_lightcurve "mjd" [NaN; NaN]).
Proof.
  apply (relative_axis_without_detection demo_color_dict demo_marker_dict
           {[ 1%positive := limits_lightcurve ]} 1%positive limits_lightcurve
           (Some "ZTF21abcdefg") None None "relative"
           [10%Q; 12%Q] [Bool true; Bool true]).
  - discriminate.
  - reflexivity.
  - reflexivity.
  - reflexivity.
  - reflexivity.
Defined.

Lemma drawing_needs_styled_bands_witness :
  ∃ ret,
    (plot_light_curve demo_color_dict demo_marker_dict
       1%positive (Some "ZTF21abcdefg") None None "mjd" example_heap).2 = Ok ret ∧
    Forall (styled demo_color_dict demo_marker_dict)
      [Str "ztfr"; Str "ztfr"; Str "ztfr"; Str "ztfr"] ∧
    ∃ drawn, ret = ReturnAx (default [] None ++ drawn) ∧
             length drawn
             = (2 * length (unique [Str "ztfr"; Str "ztfr"; Str "ztfr"; Str "ztfr"]))%nat.
Proof.
  eexists. split; [vm_compute; reflexivity|].
  apply (drawing_needs_styled_bands demo_color_dict demo_marker_dict
           example_heap 1%positive example_lightcurve (Some "ZTF21abcdefg") None).
  - reflexivity.
  - reflexivity.
  - reflexivity.
  - vm_compute. reflexivity.
Defined.

Lemma relative_axis_idempotent_witness :
  ∃ once twice,
    (plot_light_curve demo_color_dict demo_marker_dict
       1%positive (Some "ZTF21abcdefg") None None "relative" example_heap).1 !! 1%positive
      = Some (setitem example_lightcurve "mjd" (Num <$> once)) ∧
    (plot_light_curve demo_color_dict demo_marker_dict
       1%positive (Some "ZTF21abcdefg") None None "relative"
       (plot_light_curve demo_color_dict demo_marker_dict
          1%positive (Some "ZTF21abcdefg") None None "relative" example_heap).1).1
      !! 1%positive
      = Some (setitem example_lightcurve "mjd" (Num <$> twice)) ∧
    Forall2 Qeq twice once.
Proof.
  apply (relative_axis_idempotent demo_color_dict demo_marker_dict
           example_heap 1%positive example_lightcurve
           (Some "ZTF21abcdefg") None None "relative"
           (Some "ZTF21abcdefg") None None "relative"
           [10%Q; 12%Q; 15%Q; 5%Q]
           [Bool false; Bool false; Bool false; Bool true]).
  - discriminate.
  - discriminate.
  - reflexivity.
  - reflexivity.
  - reflexivity.
  - discriminate.
Defined.

(** ** From the identifiers to the dataset *)

Lemma format_antares_lc_wf locus lc :
  wf_df (lightcurve locus) → format_antares_lc locus = Ok lc → wf_df lc.
Proof.
  intros Hwf Hlc.
  apply format_antares_lc_inv in Hlc
    as (mjd & survey & passband & mag & magerr & maglim & id
        & H1 & H2 & H3 & H4 & H5 & H6 & _ & ->).
  split; [apply (bool_decide_unpack _); by vm_compute|].
  unfold len. cbn [index columns]. rewrite repeat_length.
  repeat constructor; cbn [snd];
    rewrite ?length_fillna; unfold survey_map, band_map;
    rewrite ?length_replace; by eapply wf_getitem_length.
Qed.

Lemma NoDup_List_filter {A} (f : A → bool) l :
  NoDup l → NoDup (List.filter f l).
Proof.
  induction 1 as [|x l Hx _ IH]; [constructor|]. simpl.
  destruct (f x); [|done]. constructor; [|done].
  intros H%list_elem_of_In%List.filter_In%proj1. by apply Hx, list_elem_of_In.
Qed.

#[local] Instance Str_inj : Inj (=) (=) Str.
Proof. by intros ?? [= ->]. Qed.

Section EndToEnd.

Variable get_by_ztf_object_id : string → lookup_outcome.
Variable as_completed :
  Z → list (result (DataFrame * DataFrame)) → list (result (DataFrame * DataFrame)).
Variable to_parquet : NestedFrame → string → bool → option exn.

Hypothesis as_completed_perm : ∀ w futures, as_completed w futures ≡ₚ futures.

(** The service answers a lookup with a well-formed record of the object
    asked for. *)
Hypothesis honest :
  ∀ id locus, get_by_ztf_object_id id = Found locus →
    properties locus !! "ztf_object_id" = Some (Str id) ∧ wf_df (lightcurve locus).

Local Abbreviation query := (query_ztf_lightcurve get_by_ztf_object_id).
Local Abbreviation batch :=
  (query_ztf_lightcurves get_by_ztf_object_id as_completed to_parquet).
Local Abbreviation collected := (arrived get_by_ztf_object_id as_completed).

Lemma collected_wf ids w :
  Forall (λ p : DataFrame * DataFrame, wf_df p.1) (collected ids w).
Proof.
  apply Forall_forall. intros p Hp.
  rewrite (arrived_successes _ _ as_completed_perm) in Hp.
  apply list_elem_of_omap in Hp as (r & Hr & Hp).
  apply list_elem_of_fmap in Hr as (id & -> & _).
  destruct (query id) as [p'|] eqn:E; [|done]. injection Hp as ->.
  apply query_inv in E as (locus & Hget & Hlc & _).
  eapply format_antares_lc_wf; [|exact Hlc]. by apply (honest id).
Qed.

Lemma collected_identifiers ids w :
  pair_id <$> collected ids w ≡ₚ Str <$> List.filter (λ id, is_ok (query id)) ids.
Proof.
  rewrite (arrived_successes _ _ as_completed_perm), successes_identifiers.
  rewrite honest_identifiers; [done|]. intros id locus H. by apply honest.
Qed.

(** X17.  End to end, for distinct identifiers and a service that answers
    with the record asked for: every object whose record the normalizer
    accepts has exactly one top-level row in the returned dataset, with
    its identifier, and the lightcurve cell of that row holds exactly the
    columns of its normalized lightcurve (null when the record has no
    measurement). *)
Theorem fetched_object_is_in_the_dataset ids save_by_layer w nf id locus lc :
  (0 < w)%Z →
  NoDup ids →
  batch ids None save_by_layer w = Ok nf →
  id ∈ ids →
  get_by_ztf_object_id id = Found locus →
  format_antares_lc locus = Ok lc →
  ∃ i top_ids packed,
    getitem (base nf) "ztf_object_id" = Ok top_ids ∧
    assoc "lightcurve" (nested nf) = Some packed ∧
    top_ids !! i = Some (Str id) ∧
    (∀ j, top_ids !! j = Some (Str id) → j = i) ∧
    packed !! i = Some (if Nat.eqb (len lc) 0 then None else Some (columns lc)).
Proof.
  intros Hw Hnd Hbatch Hid Hget Hlc.
  destruct (honest _ _ Hget) as [Hprop Hwfraw].
  assert (∃ meta, format_antares_meta locus = Ok meta) as [meta Hmeta].
  { apply is_ok_true, format_antares_meta_ok_iff. by eexists. }
  assert (query id = Ok (lc, meta)) as Hq.
  { unfold query_ztf_lightcurve. by rewrite Hget, Hlc, Hmeta. }
  assert ((lc, meta) ∈ collected ids w) as Hin.
  { rewrite (arrived_successes _ _ as_completed_perm).
    apply list_elem_of_omap. exists (Ok (lc, meta)). split; [|done].
    rewrite <- Hq. by apply list_elem_of_fmap_2. }
  apply list_elem_of_lookup_1 in Hin as [i Hi].
  pose proof (batch_assemble _ _ _ _ _ _ _ Hw Hbatch) as Hasm.
  pose proof (collected_normalized get_by_ztf_object_id as_completed
                as_completed_perm ids w) as Hnorm.
  pose proof (collected_wf ids w) as Hwf.
  pose proof (collected_identifiers ids w) as Hperm.
  assert (NoDup (pair_id <$> collected ids w)) as Hnd'.
  { rewrite Hperm. apply NoDup_fmap_2; [apply _|]. by apply NoDup_List_filter. }
  assert (Forall (λ p, ∃ s, pair_id p = Str s) (collected ids w)) as Hstr.
  { apply Forall_fmap with (f := pair_id) (P := λ v, ∃ s, v = Str s).
    rewrite Hperm. apply Forall_fmap, Forall_forall. intros s _. by exists s. }
  destruct (string_identifiers _ Hstr) as [names Hnames].
  assert (NoDup names) as Hndn.
  { rewrite Hnames in Hnd'. by apply NoDup_fmap_1 in Hnd'. }
  assert (pair_id (lc, meta) = Str id) as Hpid.
  { destruct (normalized_keyed_pair _ _ _ Hlc Hmeta) as (k & Hk & Hkeyed).
    rewrite (keyed_pair_id _ _ Hkeyed). congruence. }
  destruct (assemble_inv _ _ Hnorm Hasm) as (_ & _ & _ & _ & _ & _ & Hcol & _).
  exists i. eexists _, _. split; [exact Hcol|].
  rewrite (assemble_nested _ _ Hnorm Hwf Hasm).
  split; [reflexivity|].
  split; [by rewrite list_lookup_fmap, Hi; cbn; rewrite Hpid|].
  split.
  - intros j Hj. eapply NoDup_lookup; [exact Hnd'|exact Hj|].
    by rewrite list_lookup_fmap, Hi; cbn; rewrite Hpid.
  - rewrite list_lookup_fmap, Hi. cbn.
    rewrite (own_distinct names (collected ids w) i (lc, meta)) by done. cbn.
    rewrite andb_true_r. destruct (Nat.eqb (len lc) 0); [done|].
    do 2 f_equal.
    assert (normalized (lc, meta)) as Hn by (by exists locus).
    pose proof (normalized_columns _ Hn) as Hc. simpl in Hc. rewrite <- Hc.
    unfold stacked, schema. cbn. by rewrite !app_nil_r.
Qed.

End EndToEnd.

Lemma honest_service_honest id locus :
  honest_service id = Found locus →
  properties locus !! "ztf_object_id" = Some (Str id) ∧ wf_df (lightcurve locus).
Proof.
  unfold honest_service.
  destruct (String.eqb_spec id "ZTF21abcdefg") as [->|_].
  { intros [= <-]. split; [reflexivity|exact wf_demo_lightcurve]. }
  destruct (String.eqb_spec id "ZTF21zzzzzzz") as [->|_]; [|done].
  intros [= <-]. split; [reflexivity|].
  split; [apply (bool_decide_unpack _); by vm_compute|repeat constructor].
Defined.

Lemma fetched_object_is_in_the_dataset_witness :
  ∃ nf i top_ids packed,
    query_ztf_lightcurves honest_service demo_as_completed demo_to_parquet
      ["ZTF21abcdefg"; "ZTF00unknown"; "ZTF21zzzzzzz"] None true 4 = Ok nf ∧
    getitem (base nf) "ztf_object_id" = Ok top_ids ∧
    assoc "lightcurve" (nested nf) = Some packed ∧
    top_ids !! i = Some (Str "ZTF21abcdefg") ∧
    (∀ j, top_ids !! j = Some (Str "ZTF21abcdefg") → j = i) ∧
    packed !! i = Some (if Nat.eqb (len demo_lc) 0 then None else Some (columns demo_lc)).
Proof.
  eexists.
  assert (∀ (P : nat → list value → list (option (list (string * list value))) → Prop) Q,
            Q → (∃ i t p, P i t p) → ∃ i t p, Q ∧ P i t p) as Hsplit.
  { intros P Q HQ (i & t & p & HP). by exists i, t, p. }
  apply Hsplit; [vm_compute; reflexivity|].
  apply (fetched_object_is_in_the_dataset honest_service demo_as_completed
           demo_to_parquet demo_as_completed_perm honest_service_honest
           ["ZTF21abcdefg"; "ZTF00unknown"; "ZTF21zzzzzzz"] true 4 _
           "ZTF21abcdefg" demo_locus demo_lc).
  - lia.
  - apply (bool_decide_unpack _). by vm_compute.
  - reflexivity.
  - left.
  - reflexivity.
  - reflexivity.
Defined.

(** ** The chart renderer: which rows are drawn *)

Lemma py_eqb_False_True v :
  py_eqb v (Bool false) = true → py_eqb v (Bool true) = false.
Proof.
  destruct v as [| |q|s|[|]]; simpl; try done.
  intros H0. destruct (Qeq_bool q 1) eqn:H1; [|done].
  apply Qeq_bool_iff in H0, H1. rewrite H0 in H1. discriminate H1.
Qed.

Lemma band_points bands nd (col : list value) u :
  length nd = length bands → length col = length bands →
  (length (where_ (series_eq (where_ (series_eq bands u) nd) (Bool false))
             (where_ (series_eq bands u) col))
   + length (where_ (series_eq (where_ (series_eq bands u) nd) (Bool true))
               (where_ (series_eq bands u) col)))%nat
  = band_rows bands nd u.
Proof.
  unfold band_rows, drawable, series_eq.
  revert nd col. induction bands as [|b bands IH]; intros [|n nd] [|c col] Hn Hc;
    try done.
  injection Hn as Hn. injection Hc as Hc. specialize (IH nd col Hn Hc).
  cbn. destruct (py_eqb b u); cbn; [|exact IH].
  destruct (py_eqb n (Bool false)) eqn:E0.
  - rewrite (py_eqb_False_True _ E0). cbn. lia.
  - destruct (py_eqb n (Bool true)); cbn; lia.
Qed.

Lemma sum_list_with_plus {A} (g k : A → nat) l :
  sum_list_with (λ x, g x + k x)%nat l = (sum_list_with g l + sum_list_with k l)%nat.
Proof. induction l as [|x l IH]; simpl; lia. Qed.

Lemma sum_list_with_pointwise {A} (g k : A → nat) l :
  (∀ x, g x = k x) → sum_list_with g l = sum_list_with k l.
Proof. intros H. induction l as [|x l IH]; simpl; [done|]. by rewrite H, IH. Qed.

Lemma sum_list_with_indicator {A} (f : A → bool) (c : bool) l :
  sum_list_with (λ x, if f x && c then 1 else 0)%nat l
  = if c then length (List.filter f l) else 0%nat.
Proof.
  induction l as [|x l IH]; simpl; [by destruct c|].
  rewrite IH. destruct c, (f x); simpl; lia.
Qed.

(** When every row has its band matched by exactly one of the bands [U],
    the rows of the bands of [U] add up to the rows the chart can show. *)
Lemma band_rows_partition U (rows : list (value * value)) :
  (∀ p, p ∈ rows → length (List.filter (py_eqb p.1) U) = 1%nat) →
  sum_list_with
    (λ u, length (List.filter (λ p : value * value, py_eqb p.1 u && drawable p.2) rows)) U
  = length (List.filter (λ p : value * value, drawable p.2) rows).
Proof.
  induction rows as [|[b n] rows IH]; intros Hone.
  - clear Hone. simpl. induction U as [|u U IHU]; simpl; [done|]. by rewrite IHU.
  - transitivity
      (sum_list_with (λ u, if py_eqb b u && drawable n then 1 else 0)%nat U
       + sum_list_with
           (λ u, length (List.filter
                           (λ p : value * value, py_eqb p.1 u && drawable p.2) rows)) U)%nat.
    + rewrite <- sum_list_with_plus. apply sum_list_with_pointwise.
      intros u. simpl. by destruct (py_eqb b u && drawable n).
    + rewrite IH by (intros p Hp; apply Hone; by right).
      pose proof (Hone (b, n) ltac:(left)) as H1. simpl in H1.
      rewrite sum_list_with_indicator, H1.
      simpl. by destruct (drawable n).
Qed.

Lemma unique_from_count seen s b :
  Forall (λ v, ∃ a, v = Str a) seen →
  Forall (λ v, ∃ a, v = Str a) s →
  length (List.filter (py_eqb (Str b)) (unique_from seen s))
  = if existsb (label_eqb (Str b)) seen then 0%nat
    else if existsb (label_eqb (Str b)) s then 1%nat else 0%nat.
Proof.
  intros Hseen Hs. revert seen Hseen.
  induction Hs as [|v s [a ->] _ IH]; intros seen Hseen.
  - simpl. by destruct (existsb _ seen).
  - cbn [unique_from existsb]. destruct (existsb (label_eqb (Str a)) seen) eqn:Ea.
    + rewrite IH by done. destruct (existsb (label_eqb (Str b)) seen) eqn:Eb; [done|].
      simpl. destruct (String.eqb_spec b a) as [->|_]; [congruence|done].
    + cbn [List.filter py_eqb].
      pose proof (IH (Str a :: seen) ltac:(constructor; eauto)) as IH'.
      cbn [existsb label_eqb py_eqb] in IH' |- *.
      destruct (String.eqb_spec b a) as [->|_]; cbn [length orb] in IH' |- *;
        rewrite IH'.
      * by rewrite Ea.
      * done.
Qed.

Section RowsDrawn.

Variable color_dict marker_dict : gmap string string.

Local Abbreviation plot := (plot_light_curve color_dict marker_dict).

Lemma plot_band_points df band bands nd drawn :
  wf_df df →
  has_columns df schema = true →
  getitem df "band" = Ok bands →
  getitem df "non_detection" = Ok nd →
  plot_band color_dict marker_dict df [] band = Ok drawn →
  sum_list_with points drawn = band_rows bands nd band.
Proof.
  intros Hwf. unfold has_columns, schema. cbn [forallb]. rewrite !andb_true_iff.
  intros (H1 & _ & _ & H4 & H5 & _) H3 H2.
  apply is_ok_true in H1 as [mjd H1], H4 as [mag H4], H5 as [magerr H5].
  unfold plot_band. rewrite H3. cbn.
  rewrite !(getitem_getitem_mask _ _ _ _ H2). cbn.
  rewrite !(getitem_getitem_mask _ _ _ _ (getitem_getitem_mask _ _ _ _ H1)).
  rewrite !(getitem_getitem_mask _ _ _ _ (getitem_getitem_mask _ _ _ _ H4)).
  rewrite !(getitem_getitem_mask _ _ _ _ (getitem_getitem_mask _ _ _ _ H5)).
  cbn.
  destruct (style_getitem marker_dict band) as [fmt|]; [|done].
  destruct (style_getitem color_dict band) as [color|]; [|done].
  cbn. intros [= <-]. cbn. rewrite Nat.add_0_r.
  apply band_points.
  - by rewrite (wf_getitem_length _ _ _ Hwf H2), (wf_getitem_length _ _ _ Hwf H3).
  - by rewrite (wf_getitem_length _ _ _ Hwf H1), (wf_getitem_length _ _ _ Hwf H3).
Qed.

Lemma plot_bands_points df U bands nd drawn :
  wf_df df →
  has_columns df schema = true →
  getitem df "band" = Ok bands →
  getitem df "non_detection" = Ok nd →
  plot_bands color_dict marker_dict df [] U = Ok drawn →
  sum_list_with points drawn = sum_list_with (band_rows bands nd) U.
Proof.
  intros Hwf Hcols Hb Hn. revert drawn.
  induction U as [|u U IH]; intros drawn; [by intros [= <-]|].
  cbn [plot_bands].
  destruct (plot_band color_dict marker_dict df [] u) as [d1|] eqn:E1; [|done].
  cbn. rewrite plot_bands_onto.
  destruct (plot_bands color_dict marker_dict df [] U) as [d2|]; [|done].
  cbn. intros [= <-]. rewrite sum_list_with_app.
  rewrite (plot_band_points _ _ _ _ _ Hwf Hcols Hb Hn E1), (IH d2 eq_refl). done.
Qed.

(** X14.  In "mjd" mode on fresh axes, when the call returns for a
    well-formed table with the five columns, the points of all the
    artists together are as many as the rows whose flag equals [False]
    or [True]: each such row is drawn once, under its band; a row whose
    flag is anything else (a survey tag that was left unmapped, a missing
    value) is not drawn. *)
Theorem rows_drawn h r df ztf_id bands nd drawn :
  h !! r = Some df →
  wf_df df →
  has_columns df schema = true →
  getitem df "band" = Ok bands →
  getitem df "non_detection" = Ok nd →
  (plot r ztf_id None None "mjd" h).2 = Ok (ReturnAx drawn) →
  sum_list_with points drawn = length (List.filter drawable nd).
Proof.
  intros Hr Hwf Hcols Hb Hn.
  unfold plot_light_curve. cbn [String.eqb Ascii.eqb Bool.eqb negb truthy default].
  unfold bind, load, lift, ret. rewrite Hr, Hb.
  destruct (plot_bands_cases color_dict marker_dict df [] (unique bands) Hcols)
    as [(Hall & d & Hd & _)|(_ & e & -> & _)]; [|done].
  simpl in Hd. rewrite Hd. cbn. intros [= <-].
  rewrite (plot_bands_points _ _ _ _ _ Hwf Hcols Hb Hn Hd).
  apply (proj1 (styled_unique color_dict marker_dict bands)) in Hall.
  assert (Forall (λ v, ∃ a, v = Str a) bands) as Hstr.
  { eapply Forall_impl; [exact Hall|]. intros v (b & -> & _). by exists b. }
  unfold band_rows. rewrite band_rows_partition.
  - assert (length nd = length bands) as Hlen
      by (by rewrite (wf_getitem_length _ _ _ Hwf Hn), (wf_getitem_length _ _ _ Hwf Hb)).
    clear -Hlen. revert nd Hlen.
    induction bands as [|b bands IH]; intros [|n nd] Hlen; try done.
    cbn. injection Hlen as Hlen. destruct (drawable n); cbn; by rewrite IH.
  - intros [b n] Hp. cbn [fst].
    assert (b ∈ bands) as Hbin.
    { apply list_elem_of_lookup in Hp as [i Hi].
      apply lookup_zip_with_Some in Hi as (? & ? & [= <- <-] & Hi & _).
      by eapply list_elem_of_lookup_2. }
    rewrite Forall_forall in Hstr. destruct (Hstr b Hbin) as [a ->].
    unfold unique. rewrite unique_from_count by (done || by apply Forall_forall).
    cbn [existsb].
    assert (existsb (label_eqb (Str a)) bands = true) as ->; [|done].
    apply existsb_exists. exists (Str a).
    split; [by apply list_elem_of_In|apply label_eqb_refl].
Qed.

End RowsDrawn.

Lemma rows_drawn_witness :
  ∃ drawn,
    (plot_light_curve demo_color_dict demo_marker_dict
       1%positive (Some "ZTF21abcdefg") None None "mjd"
       {[ 1%positive := mixed_lightcurve ]}).2 = Ok (ReturnAx drawn) ∧
    sum_list_with points drawn
    = length (List.filter drawable [Bool false; Bool true; Num 3]) ∧
    sum_list_with points drawn = 2%nat.
Proof.
  eexists. split; [vm_compute; reflexivity|]. split; [|reflexivity].
  apply (rows_drawn demo_color_dict demo_marker_dict
           {[ 1%positive := mixed_lightcurve ]} 1%positive mixed_lightcurve
           (Some "ZTF21abcdefg")
           [Str "ztfg"; Str "ztfr"; Str "ztfg"] [Bool false; Bool true; Num 3]).
  - reflexivity.
  - split; [apply (bool_decide_unpack _); by vm_compute|repeat constructor].
  - reflexivity.
  - reflexivity.
  - reflexivity.
  - vm_compute. reflexivity.
Defined.
